(** * apex.amp front end: option resolution and the warn-or-fail helper

    A shallow embedding of [apex/amp/frontend.py] and
    [apex/amp/_amp_state.py].  Python values are a small tagged union,
    dictionaries are association lists in insertion order, exceptions are
    a sum type, and the process-wide [_amp_state] object together with
    standard output is threaded explicitly through a state-and-exception
    monad. *)

From Stdlib Require Import ZArith List String Ascii Bool Lia.
From Stdlib Require Import Floats.SpecFloat.
From Stdlib Require Import Sorting.Permutation.
Import ListNotations.
Local Open Scope string_scope.
Local Open Scope Z_scope.

(** ** Python values *)

(** The two [torch.dtype] constants the presets mention. *)
Inductive dtype : Type :=
| float16
| float32.

(** Python floats are IEEE binary64 numbers: [spec_float] at precision 53
    and maximal exponent 1024. *)
Definition prec : Z := 53.
Definition emax : Z := 1024.

Inductive value : Type :=
| VNone
| VBool (b : bool)
| VInt (z : Z)
| VFloat (f : spec_float)
| VStr (s : string)
| VDtype (d : dtype).

(** The float literal [1.0]. *)
Definition float_1_0 : spec_float := S754_finite false 4503599627370496 (-52).

(** [value == s] for a string literal [s]: only a [str] compares equal. *)
Definition py_eq_str (v : value) (s : string) : bool :=
  match v with
  | VStr t => String.eqb t s
  | _ => false
  end.

(** [value is True], [value is False], [value is None]. *)
Definition is_True (v : value) : bool :=
  match v with VBool true => true | _ => false end.
Definition is_False (v : value) : bool :=
  match v with VBool false => true | _ => false end.
Definition is_None (v : value) : bool :=
  match v with VNone => true | _ => false end.

(** Truth value of an object, as tested by [if x:] and [not x]. *)
Definition py_bool (v : value) : bool :=
  match v with
  | VNone => false
  | VBool b => b
  | VInt z => negb (z =? 0)
  | VFloat (S754_zero _) => false
  | VFloat _ => true
  | VStr s => negb (String.eqb s "")
  | VDtype _ => true
  end.

(** ** Text produced by [str.format] and [print]

    A piece of text is a sequence of chunks: literal characters, the
    [str()] rendering of a value substituted for a [{}] field, or the
    [repr()] of a dictionary. *)
Inductive chunk : Type :=
| Lit (s : string)
| Str (v : value)
| ReprDict (d : list (string * value)).

Definition text : Type := list chunk.

(** ** Exceptions *)

Inductive exn : Type :=
| AttributeError (msg : text)
| AssertionError (msg : text)
| RuntimeError (msg : text)
| KeyError (key : string)
| TypeError
| ValueError
| OverflowError.

Inductive res (A : Type) : Type :=
| Ok (a : A)
| Raise (e : exn).
Arguments Ok {A} a.
Arguments Raise {A} e.

Definition res_bind {A B : Type} (m : res A) (k : A -> res B) : res B :=
  match m with
  | Ok a => k a
  | Raise e => Raise e
  end.

Declare Scope res_scope.
Delimit Scope res_scope with res.
Notation "x <- m ;; k" := (res_bind m (fun x => k))
  (at level 61, m at next level, right associativity) : res_scope.

(** ** The builtin [float]

    Strings are sequences of bytes here: whitespace and digits are the
    ASCII ones.  The grammar is that of [float(str)]: surrounding
    whitespace is dropped, single underscores may separate digits, and
    what remains is an optional sign followed by [inf], [infinity] or
    [nan] in any case, or by a decimal literal with an optional exponent.
    The literal is rounded to the nearest binary64 number, ties to even. *)

Module PyFloat.

Definition code (c : ascii) : nat := nat_of_ascii c.

Definition is_digit (c : ascii) : bool :=
  (Nat.leb 48 (code c) && Nat.leb (code c) 57)%bool.

(** Whitespace in the sense of [str.isspace], ASCII range. *)
Definition is_space (c : ascii) : bool :=
  (Nat.leb 9 (code c) && Nat.leb (code c) 13
   || Nat.leb 28 (code c) && Nat.leb (code c) 32)%bool.

Definition lower (c : ascii) : ascii :=
  if (Nat.leb 65 (code c) && Nat.leb (code c) 90)%bool
  then ascii_of_nat (code c + 32) else c.

Definition is_char (c : ascii) (n : nat) : bool := Nat.eqb (code c) n.

Fixpoint drop_spaces (l : list ascii) : list ascii :=
  match l with
  | c :: r => if is_space c then drop_spaces r else l
  | [] => []
  end.

Definition strip (l : list ascii) : list ascii :=
  rev (drop_spaces (rev (drop_spaces l))).

(** Digit-group underscores: each one must stand between two digits;
    [prev] is the previous character, if any.  The result is the
    string with the underscores removed. *)
Fixpoint remove_underscores (prev : option ascii) (l : list ascii)
  : option (list ascii) :=
  match l with
  | [] =>
      match prev with
      | Some p => if is_char p 95 then None else Some []
      | None => Some []
      end
  | c :: r =>
      if is_char c 95 then
        match prev with
        | Some p =>
            if is_digit p then remove_underscores (Some c) r else None
        | None => None
        end
      else
        let after_underscore :=
          match prev with Some p => is_char p 95 | None => false end in
        if (after_underscore && negb (is_digit c))%bool then None
        else option_map (cons c) (remove_underscores (Some c) r)
  end.

Fixpoint span_digits (l : list ascii) : list ascii * list ascii :=
  match l with
  | c :: r =>
      if is_digit c
      then let '(ds, tl) := span_digits r in (c :: ds, tl)
      else ([], l)
  | [] => ([], [])
  end.

Definition Z_of_digits (ds : list ascii) : Z :=
  fold_left (fun acc c => 10 * acc + (Z.of_nat (code c) - 48)) ds 0.

(** An optional sign; [true] is minus. *)
Definition take_sign (l : list ascii) : bool * list ascii :=
  match l with
  | c :: r =>
      if is_char c 45 then (true, r)
      else if is_char c 43 then (false, r)
      else (false, l)
  | [] => (false, [])
  end.

(** What may follow the mantissa: nothing, or [e]/[E], an optional
    sign and at least one digit. *)
Definition parse_exponent (l : list ascii) : option Z :=
  match l with
  | [] => Some 0
  | c :: r =>
      if is_char (lower c) 101 then
        let '(neg, r') := take_sign r in
        match span_digits r' with
        | ((_ :: _) as ds, []) =>
            Some (if neg then - Z_of_digits ds else Z_of_digits ds)
        | _ => None
        end
      else None
  end.

(** A decimal literal as an integer mantissa and a power of ten. *)
Definition parse_decimal (l : list ascii) : option (Z * Z) :=
  let '(ip, r1) := span_digits l in
  let '(fp, r2) :=
    match r1 with
    | c :: r => if is_char c 46 then span_digits r else ([], r1)
    | [] => ([], [])
    end in
  match (ip ++ fp)%list with
  | [] => None
  | ds =>
      match parse_exponent r2 with
      | Some e => Some (Z_of_digits ds, e - Z.of_nat (List.length fp))
      | None => None
      end
  end.

(** The binary64 number nearest to [m * 10^e] (ties to even), for
    [m >= 0], with sign [s]. *)
Definition round_decimal (s : bool) (m e : Z) : spec_float :=
  match m with
  | Zpos p =>
      if 0 <=? e then binary_round prec emax s (p * Z.to_pos (10 ^ e)) 0
      else
        let '(q, e', l) :=
          SFdiv_core_binary prec emax (Zpos p) 0 (10 ^ (- e)) 0 in
        binary_round_aux prec emax s q e' l
  | _ => S754_zero s
  end.

Definition of_ascii (l : list ascii) : option spec_float :=
  match (if existsb (fun c => is_char c 95) (strip l)
         then remove_underscores None (strip l)
         else Some (strip l)) with
  | None => None
  | Some t =>
      let '(s, body) := take_sign t in
      let word := string_of_list_ascii (map lower body) in
      if (String.eqb word "inf" || String.eqb word "infinity")%bool
      then Some (S754_infinity s)
      else if String.eqb word "nan" then Some S754_nan
      else
        match parse_decimal body with
        | Some (m, e) => Some (round_decimal s m e)
        | None => None
        end
  end.

Definition of_string (s : string) : option spec_float :=
  of_ascii (list_ascii_of_string s).

(** [float(n)] for an integer: nearest binary64, or out of range. *)
Definition of_Z (z : Z) : option spec_float :=
  match binary_normalize prec emax z 0 false with
  | S754_infinity _ => None
  | f => Some f
  end.

End PyFloat.

(** [float(v)]: a float is returned as it is, a bool or an int is
    converted ([OverflowError] when too large), a string is parsed
    ([ValueError] when it is not a float literal), and any other object
    is a [TypeError]. *)
Definition py_float (v : value) : res spec_float :=
  match v with
  | VFloat f => Ok f
  | VBool b => Ok (if b then float_1_0 else S754_zero false)
  | VInt z =>
      match PyFloat.of_Z z with
      | Some f => Ok f
      | None => Raise OverflowError
      end
  | VStr s =>
      match PyFloat.of_string s with
      | Some f => Ok f
      | None => Raise ValueError
      end
  | VNone | VDtype _ => Raise TypeError
  end.

(** ** Dictionaries

    A [dict] with string keys, in insertion order.  Assigning to a key
    that is present replaces its value where it stands; assigning to a
    new key appends it. *)
Definition dict : Type := list (string * value).

Definition dict_contains (d : dict) (k : string) : bool :=
  existsb (fun kv => String.eqb (fst kv) k) d.

Fixpoint dict_get (d : dict) (k : string) : option value :=
  match d with
  | [] => None
  | (k', v) :: r => if String.eqb k' k then Some v else dict_get r k
  end.

(** [d[k]] *)
Definition dict_getitem (d : dict) (k : string) : res value :=
  match dict_get d k with
  | Some v => Ok v
  | None => Raise (KeyError k)
  end.

(** [d[k] = v] *)
Fixpoint dict_setitem (d : dict) (k : string) (v : value) : dict :=
  match d with
  | [] => [(k, v)]
  | (k', v') :: r =>
      if String.eqb k' k then (k', v) :: r else (k', v') :: dict_setitem r k v
  end.

(** ** class Properties

    An instance is its [options] dictionary: [__init__] stores it as the
    only entry of the instance [__dict__], and no method adds or removes
    an entry afterwards. *)
Record Properties : Type := mkProperties { options : dict }.

(** [Properties()] *)
Definition Properties_init : Properties :=
  {| options :=
      [ ("enabled", VBool false);
        ("opt_level", VNone);
        ("cast_model_type", VNone);
        ("patch_torch_functions", VBool false);
        ("keep_batchnorm_fp32", VNone);
        ("master_weights", VBool false);
        ("loss_scale", VFloat float_1_0) ] |}.

(** [self.options[name] = value] *)
Definition store (self : Properties) (name : string) (v : value) : Properties :=
  {| options := dict_setitem (options self) name v |}.

Definition no_attribute (name : string) : text :=
  [Lit ("'" ++ "Properties" ++ "' object has no attribute '" ++ name ++ "'")].

(** [Properties.__getattr__].  The test ["options" in self.__dict__]
    holds of every constructed instance. *)
Definition __getattr__ (self : Properties) (name : string) : res value :=
  if dict_contains (options self) name
  then dict_getitem (options self) name
  else Raise (AttributeError (no_attribute name)).

Definition keep_batchnorm_fp32_msg : text :=
  [Lit ("keep_batchnorm_fp32 must be a boolean, the string 'True' or 'False', "
        ++ "or None")].

(** [Properties.__setattr__], in the branch where ["options"] is in
    [self.__dict__]; the other branch, [super().__setattr__], runs only
    for the assignment of [self.options] inside [__init__].  The method
    returns the instance after the assignment. *)
Definition __setattr__ (self : Properties) (name : string) (v : value)
  : res Properties :=
  if dict_contains (options self) name then
    if String.eqb name "loss_scale" then
      if py_eq_str v "dynamic" then Ok (store self name v)
      else (f <- py_float v ;; Ok (store self name (VFloat f)))%res
    else if String.eqb name "keep_batchnorm_fp32" then
      if py_eq_str v "False" then Ok (store self name (VBool false))
      else if py_eq_str v "True" then Ok (store self name (VBool true))
      else if (is_True v || is_False v || is_None v)%bool
           then Ok (store self name v)
           else Raise (AssertionError keep_batchnorm_fp32_msg)
    else Ok (store self name v)
  else Ok self.

(** ** The presets O0 to O3 *)

Definition nl : string := String (ascii_of_nat 10) EmptyString.

Inductive preset : Type := O0 | O1 | O2 | O3.

Definition brief (o : preset) : string :=
  match o with
  | O3 => "O3:  Pure FP16 training."
  | O2 => "O2:  FP16 training with FP32 batchnorm and FP32 master weights." ++ nl
  | O1 => "O1:  Insert automatic casts around Pytorch functions and Tensor methods." ++ nl
  | O0 => "O0:  Pure FP32 training." ++ nl
  end.

(** [O3.__call__] *)
Definition O3_call (properties : Properties) : res Properties :=
  (properties <- __setattr__ properties "enabled" (VBool true) ;;
   properties <- __setattr__ properties "opt_level" (VStr "O3") ;;
   properties <- __setattr__ properties "cast_model_type" (VDtype float16) ;;
   properties <- __setattr__ properties "patch_torch_functions" (VBool false) ;;
   properties <- __setattr__ properties "keep_batchnorm_fp32" (VBool false) ;;
   properties <- __setattr__ properties "master_weights" (VBool false) ;;
   properties <- __setattr__ properties "loss_scale" (VFloat float_1_0) ;;
   Ok properties)%res.

(** [O2.__call__] *)
Definition O2_call (properties : Properties) : res Properties :=
  (properties <- __setattr__ properties "enabled" (VBool true) ;;
   properties <- __setattr__ properties "opt_level" (VStr "O2") ;;
   properties <- __setattr__ properties "cast_model_type" (VDtype float16) ;;
   properties <- __setattr__ properties "patch_torch_functions" (VBool false) ;;
   properties <- __setattr__ properties "keep_batchnorm_fp32" (VBool true) ;;
   properties <- __setattr__ properties "master_weights" (VBool true) ;;
   properties <- __setattr__ properties "loss_scale" (VStr "dynamic") ;;
   Ok properties)%res.

(** [O1.__call__] *)
Definition O1_call (properties : Properties) : res Properties :=
  (properties <- __setattr__ properties "enabled" (VBool true) ;;
   properties <- __setattr__ properties "opt_level" (VStr "O1") ;;
   properties <- __setattr__ properties "cast_model_type" (VBool false) ;;
   properties <- __setattr__ properties "patch_torch_functions" (VBool true) ;;
   properties <- __setattr__ properties "keep_batchnorm_fp32" VNone ;;
   properties <- __setattr__ properties "master_weights" (VBool false) ;;
   properties <- __setattr__ properties "loss_scale" (VStr "dynamic") ;;
   Ok properties)%res.

(** [O0.__call__] *)
Definition O0_call (properties : Properties) : res Properties :=
  (properties <- __setattr__ properties "enabled" (VBool true) ;;
   properties <- __setattr__ properties "opt_level" (VStr "O0") ;;
   properties <- __setattr__ properties "cast_model_type" (VDtype float32) ;;
   properties <- __setattr__ properties "patch_torch_functions" (VBool false) ;;
   properties <- __setattr__ properties "keep_batchnorm_fp32" VNone ;;
   properties <- __setattr__ properties "master_weights" (VBool false) ;;
   properties <- __setattr__ properties "loss_scale" (VFloat float_1_0) ;;
   Ok properties)%res.

(** Calling a preset object. *)
Definition call (o : preset) : Properties -> res Properties :=
  match o with
  | O3 => O3_call
  | O2 => O2_call
  | O1 => O1_call
  | O0 => O0_call
  end.

Definition opt_levels : list (string * preset) :=
  [ ("O3", O3); ("O2", O2); ("O1", O1); ("O0", O0) ].

(** [opt_levels[opt_level]] when [opt_level in opt_levels]: the keys are
    strings, so only a [str] can be found. *)
Definition opt_levels_get (opt_level : value) : option preset :=
  match opt_level with
  | VStr s =>
      option_map snd (find (fun kp => String.eqb (fst kp) s) opt_levels)
  | _ => None
  end.

(** ** Process-wide state: [_amp_state] and standard output *)

(** [class AmpState]: [__init__] sets [hard_override] only, so the
    attribute [opt_properties] is absent until [initialize] assigns it. *)
Record AmpState : Type := mkAmpState {
  hard_override : value;
  opt_properties : option Properties
}.

(** [AmpState()] *)
Definition AmpState_init : AmpState :=
  {| hard_override := VBool false; opt_properties := None |}.

(** The module-level object [_amp_state] and the lines printed so far. *)
Record World : Type := mkWorld {
  _amp_state : AmpState;
  stdout : list text
}.

Definition World_init : World :=
  {| _amp_state := AmpState_init; stdout := [] |}.

(** Computations that read and write the world and may raise. *)
Definition M (A : Type) : Type := World -> World * res A.

Definition ret {A : Type} (a : A) : M A := fun w => (w, Ok a).

Definition raise {A : Type} (e : exn) : M A := fun w => (w, Raise e).

Definition bind {A B : Type} (m : M A) (k : A -> M B) : M B :=
  fun w =>
    match m w with
    | (w', Ok a) => k a w'
    | (w', Raise e) => (w', Raise e)
    end.

Definition lift {A : Type} (r : res A) : M A := fun w => (w, r).

Declare Scope m_scope.
Delimit Scope m_scope with M.
Notation "x <- m ;; k" := (bind m (fun x => k))
  (at level 61, m at next level, right associativity) : m_scope.
Notation "m ;; k" := (bind m (fun _ => k))
  (at level 61, right associativity) : m_scope.

(** [print(t)] *)
Definition print (t : text) : M unit :=
  fun w => ({| _amp_state := _amp_state w; stdout := stdout w ++ [t] |}, Ok tt).

(** [_amp_state.hard_override] *)
Definition get_hard_override : M value :=
  fun w => (w, Ok (hard_override (_amp_state w))).

(** [_amp_state.hard_override = v] *)
Definition set_hard_override (v : value) : M unit :=
  fun w =>
    ({| _amp_state := {| hard_override := v;
                         opt_properties := opt_properties (_amp_state w) |};
        stdout := stdout w |}, Ok tt).

(** [_amp_state.opt_properties] *)
Definition get_opt_properties : M Properties :=
  fun w =>
    match opt_properties (_amp_state w) with
    | Some p => (w, Ok p)
    | None =>
        (w, Raise (AttributeError
                     [Lit "'AmpState' object has no attribute 'opt_properties'"]))
    end.

(** [_amp_state.opt_properties = p] *)
Definition set_opt_properties (p : Properties) : M unit :=
  fun w =>
    ({| _amp_state := {| hard_override := hard_override (_amp_state w);
                         opt_properties := Some p |};
        stdout := stdout w |}, Ok tt).

(** [setattr(_amp_state.opt_properties, k, v)]: the shared object is
    changed in place, or left as it was when the setter raises. *)
Definition setattr_opt_properties (k : string) (v : value) : M unit :=
  (p <- get_opt_properties ;;
   p' <- lift (__setattr__ p k v) ;;
   set_opt_properties p')%M.

(** ** _amp_state.py: warn_or_err *)

Definition warn_or_err (msg : string) : M unit :=
  (h <- get_hard_override ;;
   if py_bool h then print [Lit ("Warning:  " ++ msg)]
   else raise (RuntimeError
                 [Lit (msg ++ "  If you're sure you know what you're doing, supply "
                           ++ "hard_override=True to amp.initialize.")]))%M.

(** ** frontend.py: initialize *)

(** ["{:22}".format(k)]: a string is padded on the right to width 22. *)
Definition pad22 (k : string) : string :=
  k ++ string_of_list_ascii (repeat " "%char (22 - String.length k)%nat).

(** [for k, v in d.items(): print("{:22} : {}".format(k, v))] *)
Fixpoint print_items (d : dict) : M unit :=
  match d with
  | [] => ret tt
  | (k, v) :: r => (print [Lit (pad22 k); Lit " : "; Str v] ;; print_items r)%M
  end.

(** The loop over [kwargs.items()]. *)
Fixpoint process_overrides (kwargs : dict) : M unit :=
  match kwargs with
  | [] => ret tt
  | (k, v) :: r =>
      (p <- get_opt_properties ;;
       (if negb (dict_contains (options p) k)
        then raise (RuntimeError [Lit ("Unexpected kwarg " ++ k)])
        else ret tt) ;;
       (if negb (is_None v) then setattr_opt_properties k v else ret tt) ;;
       process_overrides r)%M
  end.

Section Initialize.

(** Model and optimizer handles, and the initializer of
    [apex/amp/_initialize.py], are outside this file. *)
Variables Models Optimizers : Type.
Variable _initialize :
  Models -> Optimizers -> Properties -> M (Models * Optimizers).

Definition initialize (models : Models) (optimizers : Optimizers)
    (enabled : value) (opt_level : value) (kwargs : dict)
  : M (Models * Optimizers) :=
  if negb (py_bool enabled) then
    ((if dict_contains kwargs "hard_override"
      then (h <- lift (dict_getitem kwargs "hard_override") ;;
            set_hard_override h)
      else ret tt) ;;
     set_opt_properties Properties_init ;;
     ret (models, optimizers))%M
  else
    match opt_levels_get opt_level with
    | None =>
        raise (RuntimeError
                 ([Lit "Unexpected optimization level "; Str opt_level; Lit ". "]
                  ++ [Lit "Options are 'O0', 'O1', 'O2', 'O3'."])%list)
    | Some o =>
        (p <- lift (call o Properties_init) ;;
         set_opt_properties p ;;
         print [Lit ("Selected optimization level " ++ brief o)] ;;
         print [Lit "Defaults for this optimization level are:"] ;;
         p <- get_opt_properties ;;
         print [ReprDict (options p)] ;;
         p <- get_opt_properties ;;
         print_items (options p) ;;
         print [Lit "Processing user overrides (additional kwargs that are not None)..."] ;;
         process_overrides kwargs ;;
         print [Lit "After processing overrides, optimization options are:"] ;;
         p <- get_opt_properties ;;
         print_items (options p) ;;
         p <- get_opt_properties ;;
         _initialize models optimizers p)%M
    end.

End Initialize.

Arguments initialize {Models Optimizers} _initialize models optimizers enabled opt_level kwargs.

(** ** The recognized option set *)

Definition recognized_keys : list string :=
  [ "enabled"; "opt_level"; "cast_model_type"; "patch_torch_functions";
    "keep_batchnorm_fp32"; "master_weights"; "loss_scale" ].

Definition is_recognized (k : string) : bool :=
  existsb (fun x => String.eqb x k) recognized_keys.

(** The keys of a [Properties] object are the seven recognized ones, in
    the order [__init__] wrote them. *)
Definition well_formed (p : Properties) : Prop :=
  map fst (options p) = recognized_keys.

(** ** Section 4.2 of the specification, as a table *)

Definition table_row (name : string)
  : option (value * value * value * value * value) :=
  if String.eqb name "O0" then
    Some (VDtype float32, VBool false, VNone, VBool false, VFloat float_1_0)
  else if String.eqb name "O1" then
    Some (VBool false, VBool true, VNone, VBool false, VStr "dynamic")
  else if String.eqb name "O2" then
    Some (VDtype float16, VBool false, VBool true, VBool true, VStr "dynamic")
  else if String.eqb name "O3" then
    Some (VDtype float16, VBool false, VBool false, VBool false, VFloat float_1_0)
  else None.

Definition tabulated (name : string) : option dict :=
  match table_row name with
  | Some (cast, patch, bn, master, scale) =>
      Some [ ("enabled", VBool true);
             ("opt_level", VStr name);
             ("cast_model_type", cast);
             ("patch_torch_functions", patch);
             ("keep_batchnorm_fp32", bn);
             ("master_weights", master);
             ("loss_scale", scale) ]
  | None => None
  end.

(** ** The enabled path of [initialize], cut at the override loop

    [load_preset o] is what [initialize] does between the opt-level test
    and the loop over [kwargs]; [report_and_initialize] is what it does
    after the loop. *)

Definition load_preset (o : preset) : M unit :=
  (p <- lift (call o Properties_init) ;;
   set_opt_properties p ;;
   print [Lit ("Selected optimization level " ++ brief o)] ;;
   print [Lit "Defaults for this optimization level are:"] ;;
   p <- get_opt_properties ;;
   print [ReprDict (options p)] ;;
   p <- get_opt_properties ;;
   print_items (options p) ;;
   print [Lit "Processing user overrides (additional kwargs that are not None)..."])%M.

Definition report_and_initialize {Models Optimizers : Type}
    (_initialize : Models -> Optimizers -> Properties -> M (Models * Optimizers))
    (models : Models) (optimizers : Optimizers) : M (Models * Optimizers) :=
  (print [Lit "After processing overrides, optimization options are:"] ;;
   p <- get_opt_properties ;;
   print_items (options p) ;;
   p <- get_opt_properties ;;
   _initialize models optimizers p)%M.

(** The world after [_amp_state.opt_properties = p]. *)
Definition with_opt_properties (w : World) (p : Properties) : World :=
  {| _amp_state := {| hard_override := hard_override (_amp_state w);
                      opt_properties := Some p |};
     stdout := stdout w |}.

(** The shared configuration exists and has the recognized keys. *)
Definition props_ok (w : World) : Prop :=
  exists p, opt_properties (_amp_state w) = Some p /\ well_formed p.

(** An external initializer that hands its arguments back. *)
Definition identity_initialize (models optimizers : unit) (_ : Properties)
  : M (unit * unit) :=
  ret (models, optimizers).

(** The float [128.0]. *)
Definition float_128_0 : spec_float := S754_finite false 4503599627370496 (-45).

(** ** The setter and the override loop on the configuration alone *)

(** The value [__setattr__] stores under a recognized key, or the error
    it raises. *)
Definition coerce (name : string) (v : value) : res value :=
  if String.eqb name "loss_scale" then
    if py_eq_str v "dynamic" then Ok v
    else (f <- py_float v ;; Ok (VFloat f))%res
  else if String.eqb name "keep_batchnorm_fp32" then
    if py_eq_str v "False" then Ok (VBool false)
    else if py_eq_str v "True" then Ok (VBool true)
    else if (is_True v || is_False v || is_None v)%bool then Ok v
         else Raise (AssertionError keep_batchnorm_fp32_msg)
  else Ok v.

(** The forms the two coerced options take once written. *)
Definition loss_scale_form (v : value) : bool :=
  match v with
  | VFloat _ => true
  | VStr s => String.eqb s "dynamic"
  | _ => false
  end.

Definition keep_batchnorm_fp32_form (v : value) : bool :=
  (is_True v || is_False v || is_None v)%bool.

Definition typed (p : Properties) : Prop :=
  (exists v, __getattr__ p "loss_scale" = Ok v /\ loss_scale_form v = true)
  /\ (exists v, __getattr__ p "keep_batchnorm_fp32" = Ok v
                /\ keep_batchnorm_fp32_form v = true).

(** The loop over [kwargs.items()] of [initialize], followed on the
    configuration object only: the object it leaves behind, and how the
    loop ends. *)
Fixpoint run_overrides (p : Properties) (kwargs : dict)
  : Properties * res unit :=
  match kwargs with
  | [] => (p, Ok tt)
  | (k, v) :: r =>
      if negb (dict_contains (options p) k)
      then (p, Raise (RuntimeError [Lit ("Unexpected kwarg " ++ k)]))
      else if is_None v then run_overrides p r
      else match __setattr__ p k v with
           | Ok p' => run_overrides p' r
           | Raise e => (p, Raise e)
           end
  end.

(** The line [print("{:22} : {}".format(k, v))] writes. *)
Definition item_line (kv : string * value) : text :=
  [Lit (pad22 (fst kv)); Lit " : "; Str (snd kv)].

(** What [initialize] prints up to the override loop, for preset [o]
    with defaults [p0]. *)
Definition preset_lines (o : preset) (p0 : Properties) : list text :=
  ([ [Lit ("Selected optimization level " ++ brief o)];
     [Lit "Defaults for this optimization level are:"];
     [ReprDict (options p0)] ]
   ++ map item_line (options p0)
   ++ [ [Lit "Processing user overrides (additional kwargs that are not None)..."] ])%list.

(** What it prints after the loop, for the resolved configuration [p]. *)
Definition report_lines (p : Properties) : list text :=
  ([Lit "After processing overrides, optimization options are:"]
   :: map item_line (options p))%list.

(** The world [initialize] leaves or hands over on the enabled path:
    the mode flag of [w], the configuration [p], and [out] printed. *)
Definition enabled_world (w : World) (p : Properties) (out : list text)
  : World :=
  {| _amp_state := {| hard_override := hard_override (_amp_state w);
                      opt_properties := Some p |};
     stdout := (stdout w ++ out)%list |}.

(** Every override in [kwargs] has a recognized key and, unless it is
    [None], a value the setter accepts for that key on [p]. *)
Definition accepted (p : Properties) (kwargs : dict) : Prop :=
  forall k v, In (k, v) kwargs ->
    is_recognized k = true
    /\ (is_None v = false -> exists q, __setattr__ p k v = Ok q).

(** ** _amp_state.py: master_params

    An optimizer holds a list of parameter groups, each with its list
    ['params'] (torch's [Optimizer] keeps that key in every group).  The
    generator is a state machine: the parameters left in the group being
    visited and the groups not yet visited; [next] resumes it up to the
    following [yield], and [None] is [StopIteration]. *)
Record param_group (P : Type) : Type := mkGroup { params : list P }.
Arguments mkGroup {P} params.
Arguments params {P} p.

Record Optimizer (P : Type) : Type := mkOptimizer {
  param_groups : list (param_group P)
}.
Arguments mkOptimizer {P} param_groups.
Arguments param_groups {P} o.

Definition generator (P : Type) : Type := (list P * list (param_group P))%type.

(** [master_params(optimizer)]: the generator before its first [next]. *)
Definition master_params {P : Type} (optimizer : Optimizer P) : generator P :=
  ([], param_groups optimizer).

(** Enter the following groups until one yields. *)
Fixpoint next_group {P : Type} (groups : list (param_group P))
  : option (P * generator P) :=
  match groups with
  | [] => None
  | group :: r =>
      match params group with
      | p :: ps => Some (p, (ps, r))
      | [] => next_group r
      end
  end.

(** [next(g)] *)
Definition next {P : Type} (g : generator P) : option (P * generator P) :=
  match fst g with
  | p :: ps => Some (p, (ps, snd g))
  | [] => next_group (snd g)
  end.

(** [list(g)], calling [next] at most [fuel] times: the values yielded
    and whether [StopIteration] was reached. *)
Fixpoint drain {P : Type} (fuel : nat) (g : generator P) : list P * bool :=
  match fuel with
  | O => ([], false)
  | S n =>
      match next g with
      | None => ([], true)
      | Some (p, g') => let '(ps, stop) := drain n g' in (p :: ps, stop)
      end
  end.

(** * Properties of the embedding *)

(** ** Dictionaries *)

Lemma dict_contains_keys (d : dict) (k : string) :
  dict_contains d k = existsb (fun x => String.eqb x k) (map fst d).
Proof.
  unfold dict_contains.
  induction d as [|[k' v'] d IH]; simpl; [reflexivity|].
  now rewrite IH.
Qed.

Lemma dict_get_setitem_same (d : dict) (k : string) (v : value) :
  dict_get (dict_setitem d k v) k = Some v.
Proof.
  induction d as [|[k' v'] d IH]; simpl.
  - now rewrite String.eqb_refl.
  - destruct (String.eqb k' k) eqn:E; simpl; rewrite E; auto.
Qed.

Lemma dict_get_setitem_other (d : dict) (k k' : string) (v : value) :
  k' <> k -> dict_get (dict_setitem d k v) k' = dict_get d k'.
Proof.
  intros Hne.
  induction d as [|[k0 v0] d IH]; simpl.
  - destruct (String.eqb k k') eqn:E; [|reflexivity].
    apply String.eqb_eq in E. congruence.
  - destruct (String.eqb k0 k) eqn:E; simpl.
    + apply String.eqb_eq in E. subst k0.
      destruct (String.eqb k k') eqn:E'; [|reflexivity].
      apply String.eqb_eq in E'. congruence.
    + now rewrite IH.
Qed.

Lemma dict_contains_setitem_same (d : dict) (k : string) (v : value) :
  dict_contains (dict_setitem d k v) k = true.
Proof.
  unfold dict_contains.
  induction d as [|[k' v'] d IH]; simpl.
  - now rewrite String.eqb_refl.
  - destruct (String.eqb k' k) eqn:E; simpl; rewrite E; auto.
Qed.

Lemma dict_keys_setitem (d : dict) (k : string) (v : value) :
  dict_contains d k = true -> map fst (dict_setitem d k v) = map fst d.
Proof.
  unfold dict_contains.
  induction d as [|[k' v'] d IH]; simpl; [discriminate|].
  destruct (String.eqb k' k) eqn:E; simpl; intros H.
  - reflexivity.
  - now rewrite IH.
Qed.

Lemma dict_contains_get (d : dict) (k : string) :
  dict_contains d k = true -> exists v, dict_get d k = Some v.
Proof.
  unfold dict_contains.
  induction d as [|[k' v'] d IH]; simpl; [discriminate|].
  destruct (String.eqb k' k); simpl; eauto.
Qed.

Lemma dict_get_contains (d : dict) (k : string) :
  dict_contains d k = false -> dict_get d k = None.
Proof.
  unfold dict_contains.
  induction d as [|[k' v'] d IH]; simpl; [reflexivity|].
  destruct (String.eqb k' k); simpl; [discriminate|auto].
Qed.

Lemma py_eq_str_true (v : value) (s : string) :
  py_eq_str v s = true <-> v = VStr s.
Proof.
  destruct v; simpl; split; try discriminate.
  - intros H. apply String.eqb_eq in H. now subst.
  - intros H. injection H as ->. apply String.eqb_refl.
Qed.


(** ** The Properties object *)


Lemma well_formed_contains (p : Properties) (k : string) :
  well_formed p -> dict_contains (options p) k = is_recognized k.
Proof.
  intros H. rewrite dict_contains_keys. now rewrite H.
Qed.

Lemma store_well_formed (p : Properties) (k : string) (v : value) :
  well_formed p -> is_recognized k = true -> well_formed (store p k v).
Proof.
  intros H Hk. unfold well_formed, store; simpl.
  rewrite dict_keys_setitem; [exact H|].
  now rewrite (well_formed_contains p k H).
Qed.

Lemma getattr_store (p : Properties) (k : string) (v : value) :
  __getattr__ (store p k v) k = Ok v.
Proof.
  unfold __getattr__, store, dict_getitem; simpl.
  now rewrite dict_contains_setitem_same, dict_get_setitem_same.
Qed.

Lemma getattr_store_other (p : Properties) (k k' : string) (v : value) :
  k' <> k -> well_formed p -> is_recognized k = true ->
  __getattr__ (store p k v) k' = __getattr__ p k'.
Proof.
  intros Hne Hwf Hk. unfold __getattr__, dict_getitem.
  rewrite (well_formed_contains _ k' (store_well_formed p k v Hwf Hk)).
  rewrite (well_formed_contains p k' Hwf).
  unfold store; simpl. now rewrite dict_get_setitem_other.
Qed.



Lemma setattr_unrecognized (p : Properties) (k : string) (v : value) :
  dict_contains (options p) k = false -> __setattr__ p k v = Ok p.
Proof. intros H. unfold __setattr__. now rewrite H. Qed.

(** The setter never changes the key set. *)
Lemma setattr_well_formed (p p' : Properties) (k : string) (v : value) :
  well_formed p -> __setattr__ p k v = Ok p' -> well_formed p'.
Proof.
  intros Hwf. unfold __setattr__.
  rewrite (well_formed_contains p k Hwf).
  destruct (is_recognized k) eqn:Hk; [|now intros [= <-]].
  assert (Hs : forall c, well_formed (store p k c))
    by (intros c; now apply store_well_formed).
  repeat match goal with
         | |- context [if ?b then _ else _] => destruct b
         | |- context [py_float v] => destruct (py_float v); simpl
         end; intros [= <-]; auto.
Qed.


(** ** Presets *)

(** C1. For each of the names "O0", "O1", "O2", "O3", the preset stored
    under that name in [opt_levels], applied to a fresh [Properties()],
    returns normally with exactly the configuration tabulated in section
    4.2; [enabled] reads [True] and [opt_level] reads the preset's own
    name. *)
Theorem presets_yield_table (name : string) :
  In name ["O0"; "O1"; "O2"; "O3"] ->
  exists (o : preset) (p : Properties),
    opt_levels_get (VStr name) = Some o
    /\ call o Properties_init = Ok p
    /\ tabulated name = Some (options p)
    /\ __getattr__ p "enabled" = Ok (VBool true)
    /\ __getattr__ p "opt_level" = Ok (VStr name).
Proof.
  simpl. intros [<-|[<-|[<-|[<-|[]]]]].
  - exists O0. eexists. split; [reflexivity|]. split; [reflexivity|].
    repeat split; reflexivity.
  - exists O1. eexists. split; [reflexivity|]. split; [reflexivity|].
    repeat split; reflexivity.
  - exists O2. eexists. split; [reflexivity|]. split; [reflexivity|].
    repeat split; reflexivity.
  - exists O3. eexists. split; [reflexivity|]. split; [reflexivity|].
    repeat split; reflexivity.
Qed.

Lemma presets_yield_table_O2 :
  exists (o : preset) (p : Properties),
    opt_levels_get (VStr "O2") = Some o
    /\ call o Properties_init = Ok p
    /\ tabulated "O2" = Some (options p)
    /\ __getattr__ p "enabled" = Ok (VBool true)
    /\ __getattr__ p "opt_level" = Ok (VStr "O2").
Proof.
  apply (presets_yield_table "O2"). simpl. right. right. left. reflexivity.
Defined.

(** ** Coercions of the setter *)




(** ** Unrecognized keys *)

(** C3.  For a key outside the option set, [__getattr__] raises
    [AttributeError] with a message naming the key, whereas
    [__setattr__] returns normally and leaves the object as it was: the
    assignment is dropped without an error. *)
Theorem unrecognized_key_get_raises_set_silent
    (p : Properties) (key : string) (v : value) :
  dict_contains (options p) key = false ->
  __getattr__ p key
    = Raise (AttributeError
               [Lit ("'Properties' object has no attribute '" ++ key ++ "'")])
  /\ __setattr__ p key v = Ok p.
Proof.
  intros H. split.
  - unfold __getattr__. now rewrite H.
  - now apply setattr_unrecognized.
Qed.

Lemma unrecognized_key_fused_optimizer :
  __getattr__ Properties_init "fused_optimizer"
    = Raise (AttributeError
               [Lit "'Properties' object has no attribute 'fused_optimizer'"])
  /\ __setattr__ Properties_init "fused_optimizer" (VBool true)
     = Ok Properties_init.
Proof.
  apply (unrecognized_key_get_raises_set_silent
           Properties_init "fused_optimizer" (VBool true)).
  reflexivity.
Defined.

(** ** The override loop *)

Lemma opt_levels_get_valid (name : string) :
  In name ["O0"; "O1"; "O2"; "O3"] ->
  exists o, opt_levels_get (VStr name) = Some o.
Proof.
  simpl. intros [<-|[<-|[<-|[<-|[]]]]]; eexists; reflexivity.
Qed.

Lemma opt_levels_get_invalid (opt_level : value) :
  ~ In opt_level (map VStr ["O0"; "O1"; "O2"; "O3"]) ->
  opt_levels_get opt_level = None.
Proof.
  simpl. intros H.
  destruct opt_level as [ | b | z | f | s | d ]; try reflexivity.
  assert (E : forall t, In t ["O0"; "O1"; "O2"; "O3"] -> String.eqb t s = false).
  { intros t Ht. destruct (String.eqb t s) eqn:E; [|reflexivity].
    apply String.eqb_eq in E. subst t. exfalso. apply H.
    simpl in Ht. intuition congruence. }
  unfold opt_levels_get, opt_levels. cbn [find fst].
  rewrite !E by (simpl; tauto). reflexivity.
Qed.

Lemma process_overrides_step (k : string) (v : value) (r : dict)
    (w : World) (p : Properties) :
  opt_properties (_amp_state w) = Some p ->
  process_overrides ((k, v) :: r) w =
    if negb (dict_contains (options p) k)
    then (w, Raise (RuntimeError [Lit ("Unexpected kwarg " ++ k)]))
    else if is_None v then process_overrides r w
    else match __setattr__ p k v with
         | Ok p' => process_overrides r (with_opt_properties w p')
         | Raise e => (w, Raise e)
         end.
Proof.
  intros H. cbn [process_overrides].
  unfold bind at 1. unfold get_opt_properties at 1. rewrite H.
  destruct (dict_contains (options p) k); cbn [negb]; [|reflexivity].
  unfold bind at 1. unfold ret at 1.
  destruct (is_None v); cbn [negb]; [reflexivity|].
  unfold bind at 1.
  unfold setattr_opt_properties, bind, get_opt_properties, lift.
  rewrite H.
  destruct (__setattr__ p k v); reflexivity.
Qed.

Lemma with_opt_properties_ok (w : World) (p : Properties) :
  well_formed p -> props_ok (with_opt_properties w p).
Proof. intros H. exists p. split; [reflexivity | exact H]. Qed.

(** The loop touches neither [hard_override] nor the output, and keeps
    the configuration well formed. *)
Lemma process_overrides_frame (kwargs : dict) :
  forall w, props_ok w ->
  props_ok (fst (process_overrides kwargs w))
  /\ hard_override (_amp_state (fst (process_overrides kwargs w)))
     = hard_override (_amp_state w)
  /\ stdout (fst (process_overrides kwargs w)) = stdout w.
Proof.
  induction kwargs as [|[k v] r IH]; intros w Hok.
  - simpl. auto.
  - destruct Hok as (p & Hp & Hwf).
    rewrite (process_overrides_step k v r w p Hp).
    destruct (dict_contains (options p) k); cbn [negb];
      [|simpl; split; [exists p|]; auto].
    destruct (is_None v); [apply IH; exists p; auto|].
    destruct (__setattr__ p k v) as [p'|e] eqn:E;
      [|simpl; split; [exists p|]; auto].
    apply (setattr_well_formed p p' k v Hwf) in E.
    destruct (IH (with_opt_properties w p') (with_opt_properties_ok w p' E))
      as (H1 & H2 & H3).
    auto.
Qed.

(** An override with a recognized key and the value [None] is skipped. *)
Lemma process_overrides_skip_None (k : string) (post pre : dict) :
  is_recognized k = true ->
  forall w, props_ok w ->
  process_overrides (pre ++ (k, VNone) :: post)%list w
    = process_overrides (pre ++ post)%list w.
Proof.
  intros Hk.
  induction pre as [|[k' v'] pre IH]; intros w (p & Hp & Hwf).
  - cbn [app]. rewrite (process_overrides_step k VNone post w p Hp).
    rewrite (well_formed_contains p k Hwf), Hk. reflexivity.
  - cbn [app].
    rewrite !(process_overrides_step k' v' _ w p Hp).
    destruct (dict_contains (options p) k'); cbn [negb]; [|reflexivity].
    destruct (is_None v'); [apply IH; exists p; auto|].
    destruct (__setattr__ p k' v') as [p'|e] eqn:E; [|reflexivity].
    apply IH. apply with_opt_properties_ok.
    exact (setattr_well_formed p p' k' v' Hwf E).
Qed.

(** A key outside the recognized set, at any position and with any
    value, makes the loop raise. *)
Lemma process_overrides_unrecognized (kwargs : dict) :
  existsb (fun kv => negb (is_recognized (fst kv))) kwargs = true ->
  forall w, props_ok w ->
  exists e, snd (process_overrides kwargs w) = Raise e.
Proof.
  induction kwargs as [|[k v] r IH]; [discriminate|].
  cbn [existsb fst]. intros Hex w (p & Hp & Hwf).
  rewrite (process_overrides_step k v r w p Hp).
  rewrite (well_formed_contains p k Hwf).
  destruct (is_recognized k); cbn [negb orb] in *; [|simpl; eauto].
  destruct (is_None v); [apply IH; [exact Hex | exists p; auto]|].
  destruct (__setattr__ p k v) as [p'|e] eqn:E; [|simpl; eauto].
  apply IH; [exact Hex|]. apply with_opt_properties_ok.
  exact (setattr_well_formed p p' k v Hwf E).
Qed.

Lemma bind_print {A : Type} (t : text) (k : unit -> M A) (w : World) :
  bind (print t) k w
    = k tt {| _amp_state := _amp_state w; stdout := (stdout w ++ [t])%list |}.
Proof. reflexivity. Qed.

Lemma print_items_frame (d : dict) :
  forall w, exists out,
    print_items d w
      = ({| _amp_state := _amp_state w; stdout := (stdout w ++ out)%list |},
         Ok tt).
Proof.
  induction d as [|[k v] r IH]; intros w.
  - exists []. simpl. unfold ret. rewrite app_nil_r. now destruct w.
  - cbn [print_items]. rewrite bind_print. cbv beta.
    match goal with
    | |- context [print_items r ?w'] => destruct (IH w') as (out & E)
    end.
    rewrite E. eexists. cbn [_amp_state stdout].
    rewrite <- app_assoc. reflexivity.
Qed.

Lemma bind_lift_Ok {A B : Type} (a : A) (k : A -> M B) (w : World) :
  bind (lift (Ok a)) k w = k a w.
Proof. reflexivity. Qed.

Lemma bind_set_opt_properties {A : Type} (p : Properties) (k : unit -> M A)
    (w : World) :
  bind (set_opt_properties p) k w = k tt (with_opt_properties w p).
Proof. reflexivity. Qed.

Lemma bind_get_opt_properties {A : Type} (p : Properties)
    (k : Properties -> M A) (w : World) :
  opt_properties (_amp_state w) = Some p ->
  bind get_opt_properties k w = k p w.
Proof. intros H. unfold bind, get_opt_properties. now rewrite H. Qed.

Lemma bind_print_items {A : Type} (d : dict) (k : unit -> M A) (w : World) :
  exists out,
    bind (print_items d) k w
      = k tt {| _amp_state := _amp_state w; stdout := (stdout w ++ out)%list |}.
Proof.
  destruct (print_items_frame d w) as (out & E).
  exists out. unfold bind. now rewrite E.
Qed.

(** Loading a preset installs its configuration and only prints. *)
Lemma load_preset_run (o : preset) (w : World) :
  exists p out,
    call o Properties_init = Ok p
    /\ well_formed p
    /\ load_preset o w
       = ({| _amp_state := {| hard_override := hard_override (_amp_state w);
                              opt_properties := Some p |};
             stdout := (stdout w ++ out)%list |}, Ok tt).
Proof.
  assert (exists p, call o Properties_init = Ok p /\ well_formed p)
    as (p & Hc & Hwf) by (destruct o; eexists; split; reflexivity).
  exists p. unfold load_preset. rewrite Hc.
  rewrite bind_lift_Ok, bind_set_opt_properties, !bind_print.
  rewrite (bind_get_opt_properties p) by reflexivity.
  rewrite bind_print.
  rewrite (bind_get_opt_properties p) by reflexivity.
  match goal with
  | |- context [bind (print_items ?d) ?k ?w'] =>
      destruct (bind_print_items d k w') as (out & E)
  end.
  rewrite E. unfold print, with_opt_properties. cbn [_amp_state stdout hard_override].
  eexists. split; [reflexivity|]. split; [exact Hwf|].
  repeat rewrite <- app_assoc. reflexivity.
Qed.

Lemma dict_contains_unrecognized (kwargs : dict) (k : string) :
  dict_contains kwargs k = true -> is_recognized k = false ->
  existsb (fun kv => negb (is_recognized (fst kv))) kwargs = true.
Proof.
  unfold dict_contains. intros H Hk.
  induction kwargs as [|[k' v'] r IH]; [discriminate|].
  cbn [existsb fst] in *.
  destruct (String.eqb k' k) eqn:E.
  - apply String.eqb_eq in E. subst k'. now rewrite Hk.
  - rewrite (IH H). apply orb_true_r.
Qed.

(** ** warn_or_err *)

(** C9.  With a true [hard_override], [warn_or_err msg] prints
    ["Warning:  " + msg] and returns normally, the state unchanged; with a
    false one it prints nothing and raises [RuntimeError] whose message
    is [msg] followed by the advice to pass [hard_override=True] to
    [amp.initialize]. *)
Theorem warn_or_err_warns_or_raises (msg : string) (w : World) :
  (py_bool (hard_override (_amp_state w)) = true ->
     warn_or_err msg w
       = ({| _amp_state := _amp_state w;
             stdout := (stdout w ++ [[Lit ("Warning:  " ++ msg)]])%list |},
          Ok tt))
  /\ (py_bool (hard_override (_amp_state w)) = false ->
     warn_or_err msg w
       = (w, Raise (RuntimeError
                      [Lit (msg ++ "  If you're sure you know what you're doing, supply hard_override=True to amp.initialize.")]))).
Proof.
  unfold warn_or_err, bind, get_opt_properties, get_hard_override.
  split; intros H; rewrite H; reflexivity.
Qed.

Lemma warn_or_err_both_modes :
  warn_or_err "bad option"
      {| _amp_state := {| hard_override := VBool true;
                          opt_properties := None |};
         stdout := [] |}
    = ({| _amp_state := {| hard_override := VBool true;
                           opt_properties := None |};
          stdout := [[Lit "Warning:  bad option"]] |}, Ok tt)
  /\ warn_or_err "bad option" World_init
     = (World_init,
        Raise (RuntimeError
                 [Lit "bad option  If you're sure you know what you're doing, supply hard_override=True to amp.initialize."])).
Proof.
  split.
  - apply (warn_or_err_warns_or_raises "bad option"
             {| _amp_state := {| hard_override := VBool true;
                                 opt_properties := None |};
                stdout := [] |}).
    reflexivity.
  - apply (warn_or_err_warns_or_raises "bad option" World_init).
    reflexivity.
Defined.

(** ** initialize *)

Section InitializeProperties.

Variables Models Optimizers : Type.
Variable _initialize :
  Models -> Optimizers -> Properties -> M (Models * Optimizers).

Lemma initialize_disabled (models : Models) (optimizers : Optimizers)
    (enabled opt_level : value) (kwargs : dict) (w : World) :
  py_bool enabled = false ->
  initialize _initialize models optimizers enabled opt_level kwargs w
    = ({| _amp_state :=
            {| hard_override :=
                 match dict_get kwargs "hard_override" with
                 | Some h => h
                 | None => hard_override (_amp_state w)
                 end;
               opt_properties := Some Properties_init |};
          stdout := stdout w |},
       Ok (models, optimizers)).
Proof.
  intros H. unfold initialize. rewrite H. cbn [negb].
  destruct (dict_contains kwargs "hard_override") eqn:E.
  - destruct (dict_contains_get kwargs _ E) as (h & Hh).
    unfold bind, lift, dict_getitem. rewrite Hh. reflexivity.
  - rewrite (dict_get_contains kwargs _ E).
    unfold bind, ret, set_opt_properties. now destruct w as [[h o] out].
Qed.

Lemma initialize_enabled (models : Models) (optimizers : Optimizers)
    (enabled opt_level : value) (o : preset) (kwargs : dict) (w : World) :
  py_bool enabled = true ->
  opt_levels_get opt_level = Some o ->
  initialize _initialize models optimizers enabled opt_level kwargs w
    = bind (load_preset o)
        (fun _ => bind (process_overrides kwargs)
           (fun _ => report_and_initialize _initialize models optimizers)) w.
Proof.
  intros H Ho. unfold initialize. rewrite H, Ho. cbn [negb].
  destruct o; reflexivity.
Qed.

Lemma bind_Raise {A B : Type} (m : M A) (k : A -> M B) (w : World) (e : exn) :
  snd (m w) = Raise e -> bind m k w = (fst (m w), Raise e).
Proof.
  unfold bind. destruct (m w) as [w' [a|e']]; simpl; [discriminate|].
  now intros [= ->].
Qed.

(** The enabled path with a valid opt-level reaches the override loop
    in a world [w1] that holds the preset and does not depend on the
    overrides. *)
Lemma initialize_reaches_loop (models : Models) (optimizers : Optimizers)
    (enabled : value) (name : string) (w : World) :
  py_bool enabled = true ->
  In name ["O0"; "O1"; "O2"; "O3"] ->
  exists w1,
    props_ok w1
    /\ hard_override (_amp_state w1) = hard_override (_amp_state w)
    /\ forall kwargs,
        initialize _initialize models optimizers enabled (VStr name) kwargs w
          = bind (process_overrides kwargs)
              (fun _ => report_and_initialize _initialize models optimizers)
              w1.
Proof.
  intros H Hn.
  destruct (opt_levels_get_valid name Hn) as (o & Ho).
  destruct (load_preset_run o w) as (p & out & _ & Hwf & Hl).
  eexists. split; [|split]; cycle 2.
  - intros kwargs.
    rewrite (initialize_enabled models optimizers enabled _ o kwargs w H Ho).
    unfold bind at 1. rewrite Hl. reflexivity.
  - exists p. split; [reflexivity | exact Hwf].
  - reflexivity.
Qed.

(** C4.  When [enabled] is true and [opt_level] is none of "O0", "O1",
    "O2", "O3", [initialize] raises [RuntimeError] whose message ends
    with the list of accepted values, and the world (the shared
    configuration, the mode flag and the output) is left as it was. *)
Theorem initialize_bad_opt_level (models : Models) (optimizers : Optimizers)
    (enabled opt_level : value) (kwargs : dict) (w : World) :
  py_bool enabled = true ->
  ~ In opt_level (map VStr ["O0"; "O1"; "O2"; "O3"]) ->
  initialize _initialize models optimizers enabled opt_level kwargs w
    = (w, Raise (RuntimeError
                   [Lit "Unexpected optimization level "; Str opt_level;
                    Lit ". "; Lit "Options are 'O0', 'O1', 'O2', 'O3'."])).
Proof.
  intros H Hbad. unfold initialize.
  rewrite H, (opt_levels_get_invalid opt_level Hbad). reflexivity.
Qed.

(** C5.  When [enabled] is false, [initialize] returns the pair of the
    models and optimizers it was given, replaces the shared
    configuration by a fresh [Properties()], stores the value of a
    supplied [hard_override] in the mode flag (and leaves the flag
    alone when none is supplied), and prints nothing; [opt_level] and
    the other overrides play no part. *)
Theorem initialize_disabled_passthrough
    (models : Models) (optimizers : Optimizers)
    (enabled opt_level : value) (kwargs : dict) (w : World) :
  py_bool enabled = false ->
  exists w',
    initialize _initialize models optimizers enabled opt_level kwargs w
      = (w', Ok (models, optimizers))
    /\ opt_properties (_amp_state w') = Some Properties_init
    /\ (forall h, dict_get kwargs "hard_override" = Some h ->
          hard_override (_amp_state w') = h)
    /\ (dict_contains kwargs "hard_override" = false ->
          hard_override (_amp_state w') = hard_override (_amp_state w))
    /\ stdout w' = stdout w.
Proof.
  intros H. eexists. split; [now apply initialize_disabled|].
  cbn [_amp_state opt_properties hard_override stdout].
  repeat split.
  - now intros h ->.
  - intros Hc. now rewrite (dict_get_contains kwargs _ Hc).
Qed.

(** C10.  When [enabled] is false, [initialize] returns normally
    whatever [opt_level] and the overrides are, and its outcome depends
    on the overrides only through [hard_override]: any other opt-level,
    any other overrides with the same [hard_override] entry, and any
    other external initializer give the same result and the same
    world. *)
Theorem initialize_disabled_no_validation
    (models : Models) (optimizers : Optimizers)
    (enabled opt_level : value) (kwargs : dict) (w : World) :
  py_bool enabled = false ->
  (exists w',
     initialize _initialize models optimizers enabled opt_level kwargs w
       = (w', Ok (models, optimizers)))
  /\ (forall (opt_level' : value) (kwargs' : dict)
             (_initialize' : Models -> Optimizers -> Properties
                             -> M (Models * Optimizers)),
        dict_get kwargs' "hard_override" = dict_get kwargs "hard_override" ->
        initialize _initialize' models optimizers enabled opt_level' kwargs' w
          = initialize _initialize models optimizers enabled opt_level kwargs w).
Proof.
  intros H. split.
  - eexists. now apply initialize_disabled.
  - intros opt_level' kwargs' _initialize' Hk.
    rewrite (initialize_disabled models optimizers enabled opt_level kwargs w H).
    unfold initialize. rewrite H. cbn [negb].
    destruct (dict_contains kwargs' "hard_override") eqn:E.
    + destruct (dict_contains_get kwargs' _ E) as (h & Hh).
      rewrite <- Hk, Hh.
      unfold bind, lift, dict_getitem. rewrite Hh. reflexivity.
    + rewrite <- Hk, (dict_get_contains kwargs' _ E).
      unfold bind, ret, set_opt_properties. now destruct w as [[h o] out].
Qed.

(** C6.  On the enabled path with a valid opt-level, a [hard_override]
    override makes [initialize] raise, and the mode flag keeps the
    value it had; when [hard_override] is the first override the error
    is [RuntimeError("Unexpected kwarg hard_override")]. *)
Theorem initialize_enabled_rejects_hard_override
    (models : Models) (optimizers : Optimizers)
    (enabled : value) (name : string) (kwargs : dict) (w : World) :
  py_bool enabled = true ->
  In name ["O0"; "O1"; "O2"; "O3"] ->
  dict_contains kwargs "hard_override" = true ->
  (exists e,
     snd (initialize _initialize models optimizers enabled (VStr name) kwargs w)
       = Raise e)
  /\ hard_override
       (_amp_state
          (fst (initialize _initialize models optimizers enabled (VStr name)
                  kwargs w)))
     = hard_override (_amp_state w)
  /\ (forall v rest, kwargs = ("hard_override", v) :: rest ->
        snd (initialize _initialize models optimizers enabled (VStr name)
               kwargs w)
          = Raise (RuntimeError [Lit "Unexpected kwarg hard_override"])).
Proof.
  intros H Hn Hc.
  destruct (initialize_reaches_loop models optimizers enabled name w H Hn)
    as (w1 & Hok & Hh & Hi).
  rewrite Hi.
  destruct (process_overrides_unrecognized kwargs
              (dict_contains_unrecognized kwargs _ Hc eq_refl) w1 Hok)
    as (e & He).
  rewrite (bind_Raise _ _ _ e He). cbn [fst snd].
  split; [eauto|]. split.
  - destruct (process_overrides_frame kwargs w1 Hok) as (_ & Hf & _).
    now rewrite Hf.
  - intros v rest ->. destruct Hok as (p & Hp & Hwf).
    rewrite (process_overrides_step _ v rest w1 p Hp) in He.
    rewrite (well_formed_contains p _ Hwf) in He.
    replace (is_recognized "hard_override") with false in He by reflexivity.
    cbn [negb snd] in He. injection He as <-. reflexivity.
Qed.

(** C7, amended.  On the enabled path with a valid opt-level: an
    override whose key is recognized and whose value is [None] is
    skipped, the call behaving exactly as the call without it; the
    recognized-key test is applied to every override before the [None]
    test, so an unrecognized first key raises
    [RuntimeError("Unexpected kwarg <key>")] whatever its value, [None]
    included, and an unrecognized key at any position makes the call
    raise. *)
Theorem none_override_skipped_key_checked_regardless
    (models : Models) (optimizers : Optimizers)
    (enabled : value) (name : string) (w : World) :
  py_bool enabled = true ->
  In name ["O0"; "O1"; "O2"; "O3"] ->
  (forall k pre post, is_recognized k = true ->
     initialize _initialize models optimizers enabled (VStr name)
         (pre ++ (k, VNone) :: post)%list w
       = initialize _initialize models optimizers enabled (VStr name)
           (pre ++ post)%list w)
  /\ (forall k v rest, is_recognized k = false ->
        snd (initialize _initialize models optimizers enabled (VStr name)
               ((k, v) :: rest) w)
          = Raise (RuntimeError [Lit ("Unexpected kwarg " ++ k)]))
  /\ (forall kwargs,
        existsb (fun kv => negb (is_recognized (fst kv))) kwargs = true ->
        exists e,
          snd (initialize _initialize models optimizers enabled (VStr name)
                 kwargs w) = Raise e).
Proof.
  intros H Hn.
  destruct (initialize_reaches_loop models optimizers enabled name w H Hn)
    as (w1 & Hok & Hh & Hi).
  split; [|split].
  - intros k pre post Hk. rewrite !Hi. unfold bind.
    now rewrite (process_overrides_skip_None k post pre Hk w1 Hok).
  - intros k v rest Hk. rewrite Hi.
    destruct Hok as (p & Hp & Hwf).
    unfold bind. rewrite (process_overrides_step k v rest w1 p Hp).
    rewrite (well_formed_contains p k Hwf), Hk. reflexivity.
  - intros kwargs Hex. rewrite Hi.
    destruct (process_overrides_unrecognized kwargs Hex w1 Hok) as (e & He).
    rewrite (bind_Raise _ _ _ e He). exists e. reflexivity.
Qed.

(** C8.  There is a call on the enabled path with a valid opt-level
    and two overrides, neither [None], the first accepted by the setter
    and the second rejected, after which the error of the second is
    raised while the shared configuration still holds the first: the
    value read back differs from the preset's default. *)
Theorem failed_override_keeps_earlier_one
    (models : Models) (optimizers : Optimizers) (w : World) :
  exists (k1 k2 : string) (v1 v2 : value) (p0 p1 : Properties)
         (e : exn) (w' : World),
    is_None v1 = false /\ is_None v2 = false
    /\ call O0 Properties_init = Ok p0
    /\ __setattr__ p0 k1 v1 = Ok p1
    /\ __setattr__ p1 k2 v2 = Raise e
    /\ initialize _initialize models optimizers (VBool true) (VStr "O0")
         [(k1, v1); (k2, v2)] w = (w', Raise e)
    /\ opt_properties (_amp_state w') = Some p1
    /\ __getattr__ p0 k1 = Ok VNone
    /\ __getattr__ p1 k1 = Ok (VBool true).
Proof.
  exists "keep_batchnorm_fp32", "loss_scale", (VStr "True"), (VStr "abc").
  do 2 eexists. exists ValueError. eexists.
  split; [reflexivity|]. split; [reflexivity|].
  split; [reflexivity|]. split; [reflexivity|].
  split; [reflexivity|]. split; [reflexivity|].
  split; [reflexivity|]. split; reflexivity.
Qed.

End InitializeProperties.

(** C7, the claim as stated fails: an override whose value is [None] is
    still checked against the recognized keys, and raises when its key is
    not one of them. *)
Lemma none_valued_unknown_override_raises :
  snd (initialize identity_initialize tt tt (VBool true) (VStr "O1")
         [("verbosity", VNone)] World_init)
    = Raise (RuntimeError [Lit "Unexpected kwarg verbosity"]).
Proof. reflexivity. Qed.

Lemma initialize_bad_opt_level_None_and_O5 :
  initialize identity_initialize tt tt (VBool true) VNone [] World_init
    = (World_init,
       Raise (RuntimeError
                [Lit "Unexpected optimization level "; Str VNone;
                 Lit ". "; Lit "Options are 'O0', 'O1', 'O2', 'O3'."]))
  /\ initialize identity_initialize tt tt (VBool true) (VStr "O5")
       [("loss_scale", VStr "dynamic")] World_init
     = (World_init,
        Raise (RuntimeError
                 [Lit "Unexpected optimization level "; Str (VStr "O5");
                  Lit ". "; Lit "Options are 'O0', 'O1', 'O2', 'O3'."])).
Proof.
  split.
  - apply (initialize_bad_opt_level unit unit identity_initialize tt tt
             (VBool true) VNone [] World_init).
    + reflexivity.
    + simpl. intuition discriminate.
  - apply (initialize_bad_opt_level unit unit identity_initialize tt tt
             (VBool true) (VStr "O5") [("loss_scale", VStr "dynamic")]
             World_init).
    + reflexivity.
    + simpl. intuition discriminate.
Defined.

Lemma initialize_disabled_passthrough_example :
  exists w',
    initialize identity_initialize tt tt (VBool false) (VStr "O2")
        [("hard_override", VBool true)] World_init
      = (w', Ok (tt, tt))
    /\ opt_properties (_amp_state w') = Some Properties_init
    /\ (forall h,
          dict_get [("hard_override", VBool true)] "hard_override" = Some h ->
          hard_override (_amp_state w') = h)
    /\ (dict_contains [("hard_override", VBool true)] "hard_override" = false ->
          hard_override (_amp_state w') = hard_override (_amp_state World_init))
    /\ stdout w' = stdout World_init.
Proof.
  apply (initialize_disabled_passthrough unit unit identity_initialize tt tt
           (VBool false) (VStr "O2") [("hard_override", VBool true)]
           World_init).
  reflexivity.
Defined.

Lemma initialize_disabled_no_validation_example :
  exists w',
    initialize identity_initialize tt tt (VBool false) (VStr "O7")
        [("no_such_option", VInt 3); ("loss_scale", VStr "abc")] World_init
      = (w', Ok (tt, tt)).
Proof.
  apply (initialize_disabled_no_validation unit unit identity_initialize tt tt
           (VBool false) (VStr "O7")
           [("no_such_option", VInt 3); ("loss_scale", VStr "abc")]
           World_init).
  reflexivity.
Defined.

Lemma initialize_enabled_rejects_hard_override_example :
  snd (initialize identity_initialize tt tt (VBool true) (VStr "O1")
         [("hard_override", VBool true)] World_init)
    = Raise (RuntimeError [Lit "Unexpected kwarg hard_override"])
  /\ hard_override
       (_amp_state
          (fst (initialize identity_initialize tt tt (VBool true) (VStr "O1")
                  [("hard_override", VBool true)] World_init)))
     = VBool false.
Proof.
  destruct (initialize_enabled_rejects_hard_override unit unit
              identity_initialize tt tt (VBool true) "O1"
              [("hard_override", VBool true)] World_init)
    as (_ & Hflag & Herr).
  - reflexivity.
  - simpl. right. left. reflexivity.
  - reflexivity.
  - split; [exact (Herr (VBool true) [] eq_refl) | exact Hflag].
Defined.

Lemma none_override_skipped_example :
  initialize identity_initialize tt tt (VBool true) (VStr "O2")
      [("loss_scale", VNone); ("master_weights", VBool false)] World_init
    = initialize identity_initialize tt tt (VBool true) (VStr "O2")
        [("master_weights", VBool false)] World_init
  /\ snd (initialize identity_initialize tt tt (VBool true) (VStr "O2")
            [("fused_optimizer", VBool true)] World_init)
     = Raise (RuntimeError [Lit ("Unexpected kwarg " ++ "fused_optimizer")])
  /\ exists e,
       snd (initialize identity_initialize tt tt (VBool true) (VStr "O2")
              [("loss_scale", VInt 128); ("fused_optimizer", VNone)]
              World_init) = Raise e.
Proof.
  destruct (none_override_skipped_key_checked_regardless unit unit
              identity_initialize tt tt (VBool true) "O2" World_init)
    as (Hskip & Hfirst & Hany).
  - reflexivity.
  - simpl. right. right. left. reflexivity.
  - split; [|split].
    + exact (Hskip "loss_scale" [] [("master_weights", VBool false)] eq_refl).
    + exact (Hfirst "fused_optimizer" (VBool true) [] eq_refl).
    + exact (Hany [("loss_scale", VInt 128); ("fused_optimizer", VNone)]
               eq_refl).
Defined.

(** * Further properties *)

(** ** The setter *)

Lemma setattr_coerce (p : Properties) (k : string) (v : value) :
  well_formed p -> is_recognized k = true ->
  __setattr__ p k v =
    match coerce k v with
    | Ok c => Ok (store p k c)
    | Raise e => Raise e
    end.
Proof.
  intros Hwf Hk. unfold __setattr__, coerce.
  rewrite (well_formed_contains p k Hwf), Hk.
  repeat match goal with
         | |- context [if ?b then _ else _] => destruct b
         end; try reflexivity.
  destruct (py_float v); reflexivity.
Qed.

Lemma setattr_cases (p p' : Properties) (k : string) (v : value) :
  well_formed p -> __setattr__ p k v = Ok p' ->
  (is_recognized k = false /\ p' = p)
  \/ (is_recognized k = true
      /\ exists c, coerce k v = Ok c /\ p' = store p k c).
Proof.
  intros Hwf H. destruct (is_recognized k) eqn:Hk.
  - right. split; [reflexivity|].
    rewrite (setattr_coerce p k v Hwf Hk) in H.
    destruct (coerce k v) as [c|e]; [|discriminate].
    injection H as <-. eauto.
  - left. split; [reflexivity|].
    rewrite setattr_unrecognized in H
      by now rewrite (well_formed_contains p k Hwf).
    now injection H.
Qed.

Lemma getattr_recognized (p : Properties) (k : string) :
  well_formed p -> is_recognized k = true -> exists v, __getattr__ p k = Ok v.
Proof.
  intros Hwf Hk. unfold __getattr__, dict_getitem.
  assert (Hc : dict_contains (options p) k = true)
    by now rewrite (well_formed_contains p k Hwf).
  rewrite Hc. destruct (dict_contains_get _ _ Hc) as (v & ->). eauto.
Qed.

Lemma coerce_loss_scale_form (v c : value) :
  coerce "loss_scale" v = Ok c -> loss_scale_form c = true.
Proof.
  unfold coerce. cbn [String.eqb Ascii.eqb Bool.eqb].
  destruct (py_eq_str v "dynamic") eqn:E.
  - intros [= <-]. apply py_eq_str_true in E. now subst.
  - destruct (py_float v); simpl; [|discriminate]. now intros [= <-].
Qed.

Lemma coerce_keep_batchnorm_fp32_form (v c : value) :
  coerce "keep_batchnorm_fp32" v = Ok c -> keep_batchnorm_fp32_form c = true.
Proof.
  unfold coerce. cbn [String.eqb Ascii.eqb Bool.eqb].
  destruct (py_eq_str v "False"); [now intros [= <-]|].
  destruct (py_eq_str v "True"); [now intros [= <-]|].
  unfold keep_batchnorm_fp32_form.
  destruct (is_True v || is_False v || is_None v)%bool eqn:E; [|discriminate].
  now intros [= <-].
Qed.

Lemma Properties_init_typed : typed Properties_init.
Proof. split; eexists; split; reflexivity. Qed.

Lemma setattr_typed (p p' : Properties) (k : string) (v : value) :
  well_formed p -> typed p -> __setattr__ p k v = Ok p' -> typed p'.
Proof.
  intros Hwf Ht H.
  destruct (setattr_cases p p' k v Hwf H) as [[_ ->] | (Hk & c & Hc & ->)];
    [exact Ht|].
  destruct Ht as ((vl & Hl & Hlf) & (vb & Hb & Hbf)).
  split.
  - destruct (String.eqb k "loss_scale") eqn:E.
    + apply String.eqb_eq in E. subst k. exists c.
      split; [apply getattr_store | now apply (coerce_loss_scale_form v)].
    + exists vl. split; [|exact Hlf].
      rewrite getattr_store_other; auto.
      intros <-. now rewrite String.eqb_refl in E.
  - destruct (String.eqb k "keep_batchnorm_fp32") eqn:E.
    + apply String.eqb_eq in E. subst k. exists c.
      split; [apply getattr_store
             | now apply (coerce_keep_batchnorm_fp32_form v)].
    + exists vb. split; [|exact Hbf].
      rewrite getattr_store_other; auto.
      intros <-. now rewrite String.eqb_refl in E.
Qed.

Lemma dict_setitem_idem (d : dict) (k : string) (v : value) :
  dict_setitem (dict_setitem d k v) k v = dict_setitem d k v.
Proof.
  induction d as [|[k' v'] d IH]; simpl.
  - now rewrite String.eqb_refl.
  - destruct (String.eqb k' k) eqn:E; simpl; rewrite E; [reflexivity|].
    now rewrite IH.
Qed.

Lemma coerce_idem (k : string) (v c : value) :
  coerce k v = Ok c -> coerce k c = Ok c.
Proof.
  unfold coerce.
  destruct (String.eqb k "loss_scale").
  - destruct (py_eq_str v "dynamic") eqn:E.
    + intros [= <-]. now rewrite E.
    + destruct (py_float v); simpl; [|discriminate]. now intros [= <-].
  - destruct (String.eqb k "keep_batchnorm_fp32"); [|auto].
    destruct (py_eq_str v "False"); [now intros [= <-]|].
    destruct (py_eq_str v "True"); [now intros [= <-]|].
    destruct (is_True v || is_False v || is_None v)%bool eqn:E; [|discriminate].
    intros [= <-].
    destruct v as [ | [|] | z | f | s | d ]; try discriminate; reflexivity.
Qed.

(** X1.  A successful assignment keeps the option set as it is: the
    keys are still the seven recognized ones in their order, each of
    them can be read, and every key other than the one assigned reads as
    before. *)
Theorem setattr_keeps_keys_and_other_values
    (p p' : Properties) (k : string) (v : value) :
  well_formed p ->
  __setattr__ p k v = Ok p' ->
  map fst (options p') = recognized_keys
  /\ (forall k', is_recognized k' = true -> exists v', __getattr__ p' k' = Ok v')
  /\ (forall k', k' <> k -> __getattr__ p' k' = __getattr__ p k').
Proof.
  intros Hwf H.
  assert (Hwf' : well_formed p') by exact (setattr_well_formed p p' k v Hwf H).
  split; [exact Hwf'|]. split.
  - intros k' Hk'. now apply getattr_recognized.
  - intros k' Hne.
    destruct (setattr_cases p p' k v Hwf H) as [[_ ->] | (Hk & c & _ & ->)];
      [reflexivity|].
    now apply getattr_store_other.
Qed.

Lemma setattr_keeps_keys_and_other_values_example :
  map fst (options (store Properties_init "master_weights" (VBool true)))
    = recognized_keys
  /\ __getattr__ (store Properties_init "master_weights" (VBool true))
       "loss_scale"
     = __getattr__ Properties_init "loss_scale".
Proof.
  destruct (setattr_keeps_keys_and_other_values Properties_init
              (store Properties_init "master_weights" (VBool true))
              "master_weights" (VBool true))
    as (Hkeys & _ & Hother).
  - reflexivity.
  - reflexivity.
  - split; [exact Hkeys | apply Hother; discriminate].
Defined.

(** X2.  The setter keeps the two coerced options in their stored
    forms: whatever key is assigned and whatever value is given, after a
    successful assignment [loss_scale] is a float or the string
    ["dynamic"], and [keep_batchnorm_fp32] is [True], [False] or [None],
    provided they were before. *)
Theorem setattr_keeps_stored_forms
    (p p' : Properties) (k : string) (v : value) :
  well_formed p -> typed p ->
  __setattr__ p k v = Ok p' ->
  (exists l, __getattr__ p' "loss_scale" = Ok l
             /\ ((exists f, l = VFloat f) \/ l = VStr "dynamic"))
  /\ (exists b, __getattr__ p' "keep_batchnorm_fp32" = Ok b
                /\ (b = VBool true \/ b = VBool false \/ b = VNone)).
Proof.
  intros Hwf Ht H.
  destruct (setattr_typed p p' k v Hwf Ht H)
    as ((l & Hl & Hlf) & (b & Hb & Hbf)).
  split.
  - exists l. split; [exact Hl|].
    destruct l as [ | ? | ? | f | s | ? ]; try discriminate.
    + left. eauto.
    + right. simpl in Hlf. apply String.eqb_eq in Hlf. now subst.
  - exists b. split; [exact Hb|].
    destruct b as [ | [|] | ? | ? | ? | ? ]; try discriminate; auto.
Qed.

Lemma setattr_keeps_stored_forms_example :
  (exists l,
     __getattr__ (store Properties_init "loss_scale" (VFloat float_128_0))
       "loss_scale" = Ok l
     /\ ((exists f, l = VFloat f) \/ l = VStr "dynamic"))
  /\ (exists b,
        __getattr__ (store Properties_init "loss_scale" (VFloat float_128_0))
          "keep_batchnorm_fp32" = Ok b
        /\ (b = VBool true \/ b = VBool false \/ b = VNone)).
Proof.
  apply (setattr_keeps_stored_forms Properties_init
           (store Properties_init "loss_scale" (VFloat float_128_0))
           "loss_scale" (VStr "128.0")).
  - reflexivity.
  - split; eexists; split; reflexivity.
  - reflexivity.
Defined.

(** X3.  Writing back what was read changes nothing: after a
    successful assignment to a key, assigning to that key the value now
    read from it succeeds and leaves the object as it is, so a coerced
    value is coerced to itself. *)
Theorem setattr_of_read_value_is_identity
    (p p' : Properties) (k : string) (v c : value) :
  well_formed p ->
  __setattr__ p k v = Ok p' ->
  __getattr__ p' k = Ok c ->
  __setattr__ p' k c = Ok p'.
Proof.
  intros Hwf H Hg.
  assert (Hwf' : well_formed p') by exact (setattr_well_formed p p' k v Hwf H).
  destruct (setattr_cases p p' k v Hwf H) as [[Hk ->] | (Hk & c' & Hc & ->)].
  - apply setattr_unrecognized. now rewrite (well_formed_contains p k Hwf).
  - rewrite getattr_store in Hg. injection Hg as <-.
    rewrite (setattr_coerce _ k c' Hwf' Hk), (coerce_idem k v c' Hc).
    unfold store; simpl. now rewrite dict_setitem_idem.
Qed.

Lemma setattr_of_read_value_is_identity_example :
  __setattr__ (store Properties_init "keep_batchnorm_fp32" (VBool true))
    "keep_batchnorm_fp32" (VBool true)
  = Ok (store Properties_init "keep_batchnorm_fp32" (VBool true)).
Proof.
  apply (setattr_of_read_value_is_identity Properties_init
           (store Properties_init "keep_batchnorm_fp32" (VBool true))
           "keep_batchnorm_fp32" (VStr "True") (VBool true)).
  - reflexivity.
  - reflexivity.
  - reflexivity.
Defined.

(** X4.  The five options other than [loss_scale] and
    [keep_batchnorm_fp32] are not validated: any value of any type is
    stored as given, the assignment never raises, and the value reads
    back unchanged. *)
Theorem setattr_plain_key_stores_anything
    (p : Properties) (k : string) (v : value) :
  well_formed p ->
  is_recognized k = true ->
  k <> "loss_scale" -> k <> "keep_batchnorm_fp32" ->
  __setattr__ p k v = Ok (store p k v)
  /\ __getattr__ (store p k v) k = Ok v.
Proof.
  intros Hwf Hk Hl Hb. split; [|apply getattr_store].
  rewrite (setattr_coerce p k v Hwf Hk). unfold coerce.
  apply String.eqb_neq in Hl, Hb. now rewrite Hl, Hb.
Qed.

Lemma setattr_plain_key_stores_anything_example :
  __setattr__ Properties_init "enabled" (VStr "maybe")
    = Ok (store Properties_init "enabled" (VStr "maybe"))
  /\ __getattr__ (store Properties_init "enabled" (VStr "maybe")) "enabled"
     = Ok (VStr "maybe").
Proof.
  apply (setattr_plain_key_stores_anything Properties_init "enabled"
           (VStr "maybe")).
  - reflexivity.
  - reflexivity.
  - discriminate.
  - discriminate.
Defined.

(** ** Presets *)

Lemma well_formed_shape (p : Properties) :
  well_formed p ->
  exists v1 v2 v3 v4 v5 v6 v7,
    p = {| options :=
            [ ("enabled", v1); ("opt_level", v2); ("cast_model_type", v3);
              ("patch_torch_functions", v4); ("keep_batchnorm_fp32", v5);
              ("master_weights", v6); ("loss_scale", v7) ] |}.
Proof.
  destruct p as [d]. unfold well_formed, recognized_keys; simpl.
  intros H.
  repeat (destruct d as [|[? ?] d]; [discriminate|];
          simpl in H; injection H as <- H).
  destruct d; [|discriminate].
  repeat eexists.
Qed.

Lemma call_overwrites (o : preset) (p : Properties) :
  well_formed p -> call o p = call o Properties_init.
Proof.
  intros Hwf.
  destruct (well_formed_shape p Hwf) as (v1 & v2 & v3 & v4 & v5 & v6 & v7 & ->).
  destruct o; reflexivity.
Qed.

Lemma call_total (o : preset) :
  exists p0, call o Properties_init = Ok p0 /\ well_formed p0 /\ typed p0.
Proof.
  destruct o; eexists; (split; [reflexivity|]);
    (split; [reflexivity|]); split; eexists; split; reflexivity.
Qed.

(** X5.  A preset overwrites every option: applied to any Properties
    object it returns normally with the configuration it gives on a
    fresh one, whatever the object held, so applying it a second time
    changes nothing. *)
Theorem preset_result_ignores_previous_values (o : preset) (p : Properties) :
  well_formed p ->
  exists p0,
    call o p = Ok p0
    /\ call o Properties_init = Ok p0
    /\ call o p0 = Ok p0.
Proof.
  intros Hwf. destruct (call_total o) as (p0 & H0 & Hwf0 & _).
  exists p0. split; [|split].
  - now rewrite (call_overwrites o p Hwf).
  - exact H0.
  - now rewrite (call_overwrites o p0 Hwf0).
Qed.

Lemma preset_result_ignores_previous_values_example :
  exists p0,
    call O1 (store Properties_init "master_weights" (VBool true)) = Ok p0
    /\ call O1 Properties_init = Ok p0
    /\ call O1 p0 = Ok p0.
Proof.
  apply (preset_result_ignores_previous_values O1
           (store Properties_init "master_weights" (VBool true))).
  reflexivity.
Defined.

(** ** The override loop on the configuration *)

Lemma with_opt_properties_same (w : World) (p : Properties) :
  opt_properties (_amp_state w) = Some p -> with_opt_properties w p = w.
Proof.
  destruct w as [[h o] out]. simpl. intros ->. reflexivity.
Qed.

Lemma process_overrides_run (kwargs : dict) :
  forall w p, opt_properties (_amp_state w) = Some p ->
  process_overrides kwargs w
    = (with_opt_properties w (fst (run_overrides p kwargs)),
       snd (run_overrides p kwargs)).
Proof.
  induction kwargs as [|[k v] r IH]; intros w p Hp.
  - simpl. unfold ret. now rewrite with_opt_properties_same.
  - rewrite (process_overrides_step k v r w p Hp). cbn [run_overrides].
    destruct (dict_contains (options p) k); cbn [negb fst snd].
    + destruct (is_None v); [now apply IH|].
      destruct (__setattr__ p k v) as [p'|e]; cbn [fst snd].
      * rewrite (IH (with_opt_properties w p') p' eq_refl). reflexivity.
      * now rewrite with_opt_properties_same.
    + now rewrite with_opt_properties_same.
Qed.

Lemma run_overrides_invariant (kwargs : dict) :
  forall p, well_formed p -> typed p ->
  well_formed (fst (run_overrides p kwargs))
  /\ typed (fst (run_overrides p kwargs)).
Proof.
  induction kwargs as [|[k v] r IH]; intros p Hwf Ht; [simpl; auto|].
  cbn [run_overrides].
  destruct (dict_contains (options p) k); cbn [negb]; [|simpl; auto].
  destruct (is_None v); [now apply IH|].
  destruct (__setattr__ p k v) as [p'|e] eqn:E; [|simpl; auto].
  apply IH.
  - exact (setattr_well_formed p p' k v Hwf E).
  - exact (setattr_typed p p' k v Hwf Ht E).
Qed.

Lemma print_items_exact (d : dict) :
  forall w,
    print_items d w
      = ({| _amp_state := _amp_state w;
            stdout := (stdout w ++ map item_line d)%list |}, Ok tt).
Proof.
  induction d as [|[k v] r IH]; intros w.
  - simpl. unfold ret. rewrite app_nil_r. now destruct w.
  - cbn [print_items]. rewrite bind_print. cbv beta. rewrite IH.
    cbn [_amp_state stdout map]. rewrite <- app_assoc. reflexivity.
Qed.

Lemma load_preset_exact (o : preset) (p0 : Properties) (w : World) :
  call o Properties_init = Ok p0 ->
  load_preset o w = (enabled_world w p0 (preset_lines o p0), Ok tt).
Proof.
  intros Hc. unfold load_preset. rewrite Hc.
  rewrite bind_lift_Ok, bind_set_opt_properties, !bind_print.
  rewrite (bind_get_opt_properties p0) by reflexivity.
  rewrite bind_print.
  rewrite (bind_get_opt_properties p0) by reflexivity.
  unfold bind at 1. rewrite print_items_exact.
  unfold print, with_opt_properties, enabled_world, preset_lines.
  cbn [_amp_state stdout hard_override].
  repeat rewrite <- app_assoc. reflexivity.
Qed.

Lemma run_overrides_cons (p : Properties) (k : string) (v : value) (r : dict) :
  well_formed p ->
  run_overrides p ((k, v) :: r) =
    if negb (is_recognized k)
    then (p, Raise (RuntimeError [Lit ("Unexpected kwarg " ++ k)]))
    else if is_None v then run_overrides p r
    else match coerce k v with
         | Ok c => run_overrides (store p k c) r
         | Raise e => (p, Raise e)
         end.
Proof.
  intros Hwf. cbn [run_overrides].
  rewrite (well_formed_contains p k Hwf).
  destruct (is_recognized k) eqn:Hk; cbn [negb]; [|reflexivity].
  destruct (is_None v); [reflexivity|].
  rewrite (setattr_coerce p k v Hwf Hk).
  destruct (coerce k v); reflexivity.
Qed.

(** Keys that no override assigns read as before the loop. *)
Lemma run_overrides_frame (kwargs : dict) (k' : string) :
  forall p, well_formed p ->
  (forall v, In (k', v) kwargs -> is_None v = true) ->
  __getattr__ (fst (run_overrides p kwargs)) k' = __getattr__ p k'.
Proof.
  induction kwargs as [|[k v] r IH]; intros p Hwf Hn; [reflexivity|].
  rewrite (run_overrides_cons p k v r Hwf).
  assert (Hr : forall v0, In (k', v0) r -> is_None v0 = true)
    by (intros v0 Hv0; apply Hn; now right).
  destruct (is_recognized k) eqn:Hk; cbn [negb]; [|reflexivity].
  destruct (is_None v) eqn:Hv; [now apply IH|].
  destruct (coerce k v) as [c|e]; [|reflexivity].
  rewrite IH; [|now apply store_well_formed|exact Hr].
  apply getattr_store_other; auto.
  intros ->. specialize (Hn v (or_introl eq_refl)). congruence.
Qed.

Lemma dict_setitem_comm (k1 k2 : string) (v1 v2 : value) :
  k1 <> k2 ->
  forall d, dict_contains d k1 = true -> dict_contains d k2 = true ->
  dict_setitem (dict_setitem d k1 v1) k2 v2
    = dict_setitem (dict_setitem d k2 v2) k1 v1.
Proof.
  intros Hne. unfold dict_contains.
  induction d as [|[k v] d IH]; [discriminate|].
  cbn [existsb fst dict_setitem].
  destruct (String.eqb k k1) eqn:E1; destruct (String.eqb k k2) eqn:E2.
  - apply String.eqb_eq in E1, E2. congruence.
  - intros _ _. cbn [dict_setitem]. now rewrite E1, E2.
  - intros _ _. cbn [dict_setitem]. now rewrite E1, E2.
  - cbn [orb dict_setitem]. intros H1 H2. rewrite E1, E2.
    now rewrite (IH H1 H2).
Qed.

Lemma store_comm (p : Properties) (k1 k2 : string) (c1 c2 : value) :
  well_formed p -> is_recognized k1 = true -> is_recognized k2 = true ->
  k1 <> k2 ->
  store (store p k1 c1) k2 c2 = store (store p k2 c2) k1 c1.
Proof.
  intros Hwf H1 H2 Hne. unfold store; simpl. f_equal.
  apply dict_setitem_comm; [exact Hne| |];
    now rewrite (well_formed_contains p _ Hwf).
Qed.

Lemma run_overrides_swap (p : Properties) (k1 k2 : string) (v1 v2 : value)
    (l : dict) :
  well_formed p -> k1 <> k2 ->
  snd (run_overrides p ((k1, v1) :: (k2, v2) :: l)) = Ok tt ->
  run_overrides p ((k2, v2) :: (k1, v1) :: l)
    = run_overrides p ((k1, v1) :: (k2, v2) :: l).
Proof.
  intros Hwf Hne.
  destruct (is_recognized k1) eqn:H1, (is_recognized k2) eqn:H2,
           (is_None v1) eqn:N1, (is_None v2) eqn:N2,
           (coerce k1 v1) as [c1|e1] eqn:C1,
           (coerce k2 v2) as [c2|e2] eqn:C2;
    repeat (rewrite run_overrides_cons by auto using store_well_formed;
            rewrite ?H1, ?H2, ?N1, ?N2, ?C1, ?C2; cbn [negb]);
    try reflexivity; try discriminate.
  intros _. now rewrite (store_comm p k1 k2 c1 c2 Hwf H1 H2 Hne).
Qed.

Lemma run_overrides_permutation (l l' : dict) :
  Permutation l l' ->
  forall p, well_formed p -> NoDup (map fst l) ->
  snd (run_overrides p l) = Ok tt ->
  run_overrides p l' = run_overrides p l.
Proof.
  induction 1 as [ | [k v] l l' Hp IH | [k2 v2] [k1 v1] l | l l' l'' H1 IH1 H2 IH2 ];
    intros p Hwf Hnd Hok.
  - reflexivity.
  - cbn [map fst] in Hnd. apply NoDup_cons_iff in Hnd. destruct Hnd as (_ & Hnd).
    rewrite !(run_overrides_cons p k v _ Hwf) in *.
    destruct (is_recognized k) eqn:Hk; cbn [negb] in *; [|reflexivity].
    destruct (is_None v); [now apply IH|].
    destruct (coerce k v) as [c|e]; [|reflexivity].
    apply IH; auto. now apply store_well_formed.
  - cbn [map fst] in Hnd. apply NoDup_cons_iff in Hnd. destruct Hnd as (Hin & _).
    apply run_overrides_swap; auto.
    intros ->. apply Hin. now left.
  - rewrite <- (IH1 p Hwf Hnd Hok). apply IH2; auto.
    + apply (Permutation_NoDup (Permutation_map fst H1) Hnd).
    + now rewrite (IH1 p Hwf Hnd Hok).
Qed.

(** The value an accepted override leaves under its key. *)
Lemma run_overrides_applied (kwargs : dict) (k : string) (v : value) :
  forall p, well_formed p -> NoDup (map fst kwargs) ->
  snd (run_overrides p kwargs) = Ok tt ->
  In (k, v) kwargs -> is_None v = false ->
  exists c, coerce k v = Ok c
            /\ is_recognized k = true
            /\ __getattr__ (fst (run_overrides p kwargs)) k = Ok c.
Proof.
  induction kwargs as [|[k1 v1] r IH]; intros p Hwf Hnd Hok Hin Hv; [easy|].
  cbn [map fst] in Hnd. apply NoDup_cons_iff in Hnd. destruct Hnd as (Hk1 & Hnd).
  rewrite (run_overrides_cons p k1 v1 r Hwf) in Hok |- *.
  destruct (is_recognized k1) eqn:Hr; cbn [negb] in Hok |- *; [|discriminate].
  destruct Hin as [[= -> ->] | Hin].
  - clear IH. rewrite Hv in Hok |- *.
    destruct (coerce k v) as [c|e] eqn:Hc; [|discriminate].
    exists c. split; [reflexivity|]. split; [exact Hr|].
    rewrite run_overrides_frame.
    + apply getattr_store.
    + now apply store_well_formed.
    + intros v0 Hv0. exfalso. apply Hk1.
      apply (in_map fst) in Hv0. exact Hv0.
  - destruct (is_None v1) eqn:Hn1; [now apply IH|].
    destruct (coerce k1 v1) as [c1|e1] eqn:Hc1; [|discriminate].
    apply IH; auto. now apply store_well_formed.
Qed.

Lemma accepted_coerce (p : Properties) (kwargs : dict) :
  well_formed p -> accepted p kwargs ->
  forall k v, In (k, v) kwargs ->
    is_recognized k = true
    /\ (is_None v = false -> exists c, coerce k v = Ok c).
Proof.
  intros Hwf Ha k v Hin. destruct (Ha k v Hin) as (Hk & Hv).
  split; [exact Hk|]. intros Hn. destruct (Hv Hn) as (q & Hq).
  rewrite (setattr_coerce p k v Hwf Hk) in Hq.
  destruct (coerce k v) as [c|e]; [eauto | discriminate].
Qed.

Lemma run_overrides_accepted (kwargs : dict) :
  (forall k v, In (k, v) kwargs ->
     is_recognized k = true
     /\ (is_None v = false -> exists c, coerce k v = Ok c)) ->
  forall p, well_formed p -> snd (run_overrides p kwargs) = Ok tt.
Proof.
  induction kwargs as [|[k v] r IH]; intros Ha p Hwf; [reflexivity|].
  rewrite (run_overrides_cons p k v r Hwf).
  destruct (Ha k v (or_introl eq_refl)) as (Hk & Hv).
  assert (Hr : forall k0 v0, In (k0, v0) r ->
            is_recognized k0 = true
            /\ (is_None v0 = false -> exists c, coerce k0 v0 = Ok c))
    by (intros k0 v0 H0; apply Ha; now right).
  rewrite Hk. cbn [negb].
  destruct (is_None v) eqn:Hn; [now apply IH|].
  destruct (Hv eq_refl) as (c & ->).
  apply IH; [exact Hr | now apply store_well_formed].
Qed.

Lemma run_overrides_app (pre post : dict) :
  forall p, well_formed p ->
  snd (run_overrides p pre) = Ok tt ->
  run_overrides p (pre ++ post)%list
    = run_overrides (fst (run_overrides p pre)) post.
Proof.
  induction pre as [|[k v] r IH]; intros p Hwf Hok; [reflexivity|].
  cbn [app]. rewrite (run_overrides_cons p k v _ Hwf).
  rewrite (run_overrides_cons p k v r Hwf) in Hok |- *.
  destruct (is_recognized k) eqn:Hk; cbn [negb] in Hok |- *; [|discriminate].
  destruct (is_None v); [now apply IH|].
  destruct (coerce k v) as [c|e]; [|discriminate].
  apply IH; [now apply store_well_formed | exact Hok].
Qed.

(** ** initialize, on the enabled path *)

Section InitializeEnabled.

Variables Models Optimizers : Type.
Variable _initialize :
  Models -> Optimizers -> Properties -> M (Models * Optimizers).

Lemma report_and_initialize_exact (models : Models) (optimizers : Optimizers)
    (p : Properties) (w : World) :
  opt_properties (_amp_state w) = Some p ->
  report_and_initialize _initialize models optimizers w
    = _initialize models optimizers p
        {| _amp_state := _amp_state w;
           stdout := (stdout w ++ report_lines p)%list |}.
Proof.
  intros Hp. unfold report_and_initialize.
  rewrite bind_print.
  rewrite (bind_get_opt_properties p) by exact Hp.
  unfold bind at 1. rewrite print_items_exact.
  rewrite (bind_get_opt_properties p) by exact Hp.
  cbn [_amp_state stdout]. unfold report_lines.
  rewrite <- app_assoc. reflexivity.
Qed.

(** The enabled path in one equation. *)
Lemma initialize_exact (models : Models) (optimizers : Optimizers)
    (enabled opt_level : value) (o : preset) (p0 : Properties)
    (kwargs : dict) (w : World) :
  py_bool enabled = true ->
  opt_levels_get opt_level = Some o ->
  call o Properties_init = Ok p0 ->
  initialize _initialize models optimizers enabled opt_level kwargs w
    = match snd (run_overrides p0 kwargs) with
      | Ok _ =>
          _initialize models optimizers (fst (run_overrides p0 kwargs))
            (enabled_world w (fst (run_overrides p0 kwargs))
               (preset_lines o p0
                ++ report_lines (fst (run_overrides p0 kwargs)))%list)
      | Raise e =>
          (enabled_world w (fst (run_overrides p0 kwargs)) (preset_lines o p0),
           Raise e)
      end.
Proof.
  intros H Ho Hc.
  rewrite (initialize_enabled Models Optimizers _initialize models optimizers
             enabled _ o kwargs w H Ho).
  unfold bind at 1. rewrite (load_preset_exact o p0 w Hc).
  unfold bind at 1.
  rewrite (process_overrides_run kwargs
             (enabled_world w p0 (preset_lines o p0)) p0 eq_refl).
  destruct (run_overrides p0 kwargs) as [p r]. cbn [fst snd].
  destruct r as [[]|e]; [|reflexivity].
  rewrite (report_and_initialize_exact models optimizers p) by reflexivity.
  unfold enabled_world, with_opt_properties. cbn [_amp_state stdout hard_override].
  now rewrite <- app_assoc.
Qed.

Lemma call_Ok_invariant (o : preset) (p0 : Properties) :
  call o Properties_init = Ok p0 -> well_formed p0 /\ typed p0.
Proof.
  intros H. destruct (call_total o) as (q & Hq & Hwf & Ht).
  rewrite Hq in H. injection H as <-. auto.
Qed.

(** X6.  When every override has a recognized key and a value the
    setter accepts, [initialize] returns what the external initializer
    returns, called with the models, the optimizers and the resolved
    configuration.  That configuration is the one stored in
    [_amp_state.opt_properties] at the call; under the key of each
    override that is not [None] it reads what the setter stores for that
    override, and under every other key the preset's default.  The mode
    flag is untouched, and the lines printed are the preset's followed
    by the report of the resolved configuration. *)
Theorem initialize_resolves_and_hands_over
    (models : Models) (optimizers : Optimizers)
    (enabled opt_level : value) (o : preset) (p0 : Properties)
    (kwargs : dict) (w : World) :
  py_bool enabled = true ->
  opt_levels_get opt_level = Some o ->
  call o Properties_init = Ok p0 ->
  NoDup (map fst kwargs) ->
  accepted p0 kwargs ->
  exists p,
    initialize _initialize models optimizers enabled opt_level kwargs w
      = _initialize models optimizers p
          (enabled_world w p (preset_lines o p0 ++ report_lines p)%list)
    /\ well_formed p
    /\ (forall k v q, In (k, v) kwargs -> is_None v = false ->
          __setattr__ p0 k v = Ok q -> __getattr__ p k = __getattr__ q k)
    /\ (forall k', (forall v, In (k', v) kwargs -> is_None v = true) ->
          __getattr__ p k' = __getattr__ p0 k').
Proof.
  intros H Ho Hc Hnd Ha.
  destruct (call_Ok_invariant o p0 Hc) as (Hwf & Ht).
  pose proof (run_overrides_accepted kwargs (accepted_coerce p0 kwargs Hwf Ha)
                p0 Hwf) as Hok.
  exists (fst (run_overrides p0 kwargs)).
  split; [|split; [|split]].
  - rewrite (initialize_exact models optimizers enabled opt_level o p0 kwargs w
               H Ho Hc).
    now rewrite Hok.
  - now apply run_overrides_invariant.
  - intros k v q Hin Hn Hq.
    destruct (run_overrides_applied kwargs k v p0 Hwf Hnd Hok Hin Hn)
      as (c & Hcv & Hk & Hg).
    rewrite (setattr_coerce p0 k v Hwf Hk), Hcv in Hq. injection Hq as <-.
    now rewrite Hg, getattr_store.
  - intros k' Hk'. now apply run_overrides_frame.
Qed.

(** X7.  When the overrides before some override are all accepted and
    that override is rejected, be it for an unrecognized key (whatever
    its value) or for a value its setter refuses, [initialize] raises
    that override's error without calling the external initializer and
    without looking at the overrides after it.  Only the preset's lines
    are printed, the mode flag is untouched, and the shared
    configuration left behind is exactly the one that the accepted
    overrides alone resolve to. *)
Theorem initialize_stops_at_first_rejected_override
    (models : Models) (optimizers : Optimizers)
    (enabled opt_level : value) (o : preset) (p0 : Properties)
    (pre post : dict) (k : string) (v : value) (e : exn) (w : World) :
  py_bool enabled = true ->
  opt_levels_get opt_level = Some o ->
  call o Properties_init = Ok p0 ->
  accepted p0 pre ->
  (is_recognized k = false
   /\ e = RuntimeError [Lit ("Unexpected kwarg " ++ k)])
  \/ (is_recognized k = true /\ is_None v = false
      /\ __setattr__ p0 k v = Raise e) ->
  exists p,
    initialize _initialize models optimizers enabled opt_level
        (pre ++ (k, v) :: post)%list w
      = (enabled_world w p (preset_lines o p0), Raise e)
    /\ initialize _initialize models optimizers enabled opt_level pre w
       = _initialize models optimizers p
           (enabled_world w p (preset_lines o p0 ++ report_lines p)%list).
Proof.
  intros H Ho Hc Ha Hbad.
  destruct (call_Ok_invariant o p0 Hc) as (Hwf & Ht).
  pose proof (run_overrides_accepted pre (accepted_coerce p0 pre Hwf Ha)
                p0 Hwf) as Hok.
  exists (fst (run_overrides p0 pre)).
  destruct (run_overrides_invariant pre p0 Hwf Ht) as (Hwf' & _).
  split.
  - rewrite (initialize_exact models optimizers enabled opt_level o p0 _ w
               H Ho Hc).
    rewrite (run_overrides_app pre _ p0 Hwf Hok).
    rewrite (run_overrides_cons _ k v post Hwf').
    destruct Hbad as [(Hk & ->) | (Hk & Hn & Hs)].
    + rewrite Hk. reflexivity.
    + rewrite Hk, Hn. cbn [negb].
      rewrite (setattr_coerce p0 k v Hwf Hk) in Hs.
      destruct (coerce k v) as [c|e']; [discriminate|].
      injection Hs as ->. reflexivity.
  - rewrite (initialize_exact models optimizers enabled opt_level o p0 pre w
               H Ho Hc).
    now rewrite Hok.
Qed.

(** X8.  On the enabled path with a valid opt-level, whatever the
    overrides are, [initialize] either calls the external initializer or
    raises before calling it, and in both cases the shared configuration
    at that point, which is the one passed to the initializer, has
    exactly the seven recognized keys, a [loss_scale] that is a float or
    ["dynamic"], and a [keep_batchnorm_fp32] that is [True], [False] or
    [None]; the mode flag is the one found on entry. *)
Theorem initialize_configuration_always_well_formed
    (models : Models) (optimizers : Optimizers)
    (enabled opt_level : value) (o : preset) (kwargs : dict) (w : World) :
  py_bool enabled = true ->
  opt_levels_get opt_level = Some o ->
  exists p out,
    well_formed p /\ typed p
    /\ (initialize _initialize models optimizers enabled opt_level kwargs w
          = _initialize models optimizers p (enabled_world w p out)
        \/ exists e,
             initialize _initialize models optimizers enabled opt_level
                 kwargs w
               = (enabled_world w p out, Raise e)).
Proof.
  intros H Ho.
  destruct (call_total o) as (p0 & Hc & Hwf & Ht).
  destruct (run_overrides_invariant kwargs p0 Hwf Ht) as (Hwf' & Ht').
  rewrite (initialize_exact models optimizers enabled opt_level o p0 kwargs w
             H Ho Hc).
  exists (fst (run_overrides p0 kwargs)).
  destruct (snd (run_overrides p0 kwargs)) as [[]|e].
  - eexists. split; [exact Hwf'|]. split; [exact Ht'|]. left. reflexivity.
  - eexists. split; [exact Hwf'|]. split; [exact Ht'|]. right. eauto.
Qed.

(** X9.  Accepted overrides can be given in any order: when the
    overrides have distinct keys (as keyword arguments do) and are all
    accepted, calling [initialize] with them rearranged gives the same
    result and the same world. *)
Theorem initialize_override_order_irrelevant
    (models : Models) (optimizers : Optimizers)
    (enabled opt_level : value) (o : preset) (p0 : Properties)
    (kwargs kwargs' : dict) (w : World) :
  py_bool enabled = true ->
  opt_levels_get opt_level = Some o ->
  call o Properties_init = Ok p0 ->
  Permutation kwargs kwargs' ->
  NoDup (map fst kwargs) ->
  accepted p0 kwargs ->
  initialize _initialize models optimizers enabled opt_level kwargs' w
    = initialize _initialize models optimizers enabled opt_level kwargs w.
Proof.
  intros H Ho Hc Hperm Hnd Ha.
  destruct (call_Ok_invariant o p0 Hc) as (Hwf & _).
  pose proof (run_overrides_accepted kwargs (accepted_coerce p0 kwargs Hwf Ha)
                p0 Hwf) as Hok.
  rewrite !(initialize_exact models optimizers enabled opt_level o p0 _ w
              H Ho Hc).
  now rewrite (run_overrides_permutation kwargs kwargs' Hperm p0 Hwf Hnd Hok).
Qed.

(** X10.  Each call starts from a fresh configuration: when [enabled]
    is false or the opt-level is valid, the outcome of [initialize] does
    not depend on the configuration a previous call left in
    [_amp_state.opt_properties], nor on whether there was one. *)
Theorem initialize_ignores_previous_configuration
    (models : Models) (optimizers : Optimizers)
    (enabled opt_level : value) (kwargs : dict) (w : World)
    (previous : option Properties) :
  py_bool enabled = false \/ (exists o, opt_levels_get opt_level = Some o) ->
  initialize _initialize models optimizers enabled opt_level kwargs
      {| _amp_state := {| hard_override := hard_override (_amp_state w);
                          opt_properties := previous |};
         stdout := stdout w |}
    = initialize _initialize models optimizers enabled opt_level kwargs w.
Proof.
  destruct (py_bool enabled) eqn:H.
  - intros [Hf | (o & Ho)]; [discriminate|].
    destruct (call_total o) as (p0 & Hc & _).
    now rewrite !(initialize_exact models optimizers enabled opt_level o p0
                    kwargs _ H Ho Hc).
  - intros _.
    now rewrite !(initialize_disabled Models Optimizers _initialize models
                    optimizers enabled opt_level kwargs _ H).
Qed.

(** X11.  The disabled path is how the mode flag is set: after
    [initialize] with [enabled] false and a [hard_override] override,
    [warn_or_err] prints its warning and returns when that value is
    true, and raises when it is false; without the override it behaves
    as it would have before the call. *)
Theorem initialize_disabled_then_warn_or_err
    (models : Models) (optimizers : Optimizers)
    (enabled opt_level : value) (kwargs : dict) (msg : string) (w : World) :
  py_bool enabled = false ->
  (forall h, dict_get kwargs "hard_override" = Some h -> py_bool h = true ->
     exists w',
       bind (initialize _initialize models optimizers enabled opt_level kwargs)
            (fun _ => warn_or_err msg) w = (w', Ok tt)
       /\ stdout w' = (stdout w ++ [[Lit ("Warning:  " ++ msg)]])%list
       /\ hard_override (_amp_state w') = h)
  /\ (forall h, dict_get kwargs "hard_override" = Some h -> py_bool h = false ->
        exists w' t,
          bind (initialize _initialize models optimizers enabled opt_level
                  kwargs)
               (fun _ => warn_or_err msg) w = (w', Raise (RuntimeError t))
          /\ stdout w' = stdout w)
  /\ (dict_get kwargs "hard_override" = None ->
        snd (bind (initialize _initialize models optimizers enabled opt_level
                     kwargs)
                  (fun _ => warn_or_err msg) w)
          = snd (warn_or_err msg w)).
Proof.
  intros H.
  unfold bind at 1 2 3.
  rewrite (initialize_disabled Models Optimizers _initialize models optimizers
             enabled opt_level kwargs w H).
  unfold warn_or_err, bind, get_hard_override.
  cbn [_amp_state hard_override].
  split; [|split].
  - intros h -> Hh. rewrite Hh. eexists. split; [reflexivity|]. split; reflexivity.
  - intros h -> Hh. rewrite Hh. do 2 eexists. split; reflexivity.
  - intros ->. destruct (py_bool (hard_override (_amp_state w))); reflexivity.
Qed.

End InitializeEnabled.

Lemma initialize_resolves_and_hands_over_example :
  exists p,
    snd (initialize identity_initialize tt tt (VBool true) (VStr "O2")
           [("keep_batchnorm_fp32", VStr "False"); ("loss_scale", VNone)]
           World_init) = Ok (tt, tt)
    /\ opt_properties
         (_amp_state
            (fst (initialize identity_initialize tt tt (VBool true) (VStr "O2")
                    [("keep_batchnorm_fp32", VStr "False"); ("loss_scale", VNone)]
                    World_init))) = Some p
    /\ __getattr__ p "keep_batchnorm_fp32" = Ok (VBool false)
    /\ __getattr__ p "master_weights" = Ok (VBool true)
    /\ __getattr__ p "loss_scale" = Ok (VStr "dynamic").
Proof.
  edestruct (initialize_resolves_and_hands_over unit unit identity_initialize
               tt tt (VBool true) (VStr "O2") O2 _
               [("keep_batchnorm_fp32", VStr "False"); ("loss_scale", VNone)]
               World_init eq_refl eq_refl eq_refl)
    as (p & Heq & Hwf & Hset & Hother).
  - repeat constructor; simpl; intuition discriminate.
  - intros k v [[= <- <-] | [[= <- <-] | []]];
      (split; [reflexivity | intros Hn; try discriminate; eexists; reflexivity]).
  - exists p. rewrite Heq. split; [reflexivity|]. split; [reflexivity|].
    split; [|split].
    + rewrite (Hset "keep_batchnorm_fp32" (VStr "False") _
                 (or_introl eq_refl) eq_refl eq_refl).
      reflexivity.
    + rewrite (Hother "master_weights"); [reflexivity|].
      intros v [[=] | [[=] | []]].
    + rewrite (Hother "loss_scale"); [reflexivity|].
      intros v [[=] | [[= <-] | []]]. reflexivity.
Defined.

Lemma initialize_stops_at_first_rejected_override_example :
  exists p,
    snd (initialize identity_initialize tt tt (VBool true) (VStr "O1")
           ([("master_weights", VBool true)]
            ++ ("keep_batchnorm_fp32", VInt 1) :: [("loss_scale", VInt 8)])%list
           World_init)
      = Raise (AssertionError keep_batchnorm_fp32_msg)
    /\ opt_properties
         (_amp_state
            (fst (initialize identity_initialize tt tt (VBool true) (VStr "O1")
                    ([("master_weights", VBool true)]
                     ++ ("keep_batchnorm_fp32", VInt 1)
                        :: [("loss_scale", VInt 8)])%list
                    World_init))) = Some p
    /\ opt_properties
         (_amp_state
            (fst (initialize identity_initialize tt tt (VBool true) (VStr "O1")
                    [("master_weights", VBool true)] World_init))) = Some p.
Proof.
  edestruct (initialize_stops_at_first_rejected_override unit unit
               identity_initialize tt tt (VBool true) (VStr "O1") O1 _
               [("master_weights", VBool true)] [("loss_scale", VInt 8)]
               "keep_batchnorm_fp32" (VInt 1)
               (AssertionError keep_batchnorm_fp32_msg)
               World_init eq_refl eq_refl eq_refl)
    as (p & Hbad & Hpre).
  - intros k v [[= <- <-] | []].
    split; [reflexivity | intros _; eexists; reflexivity].
  - right. split; [reflexivity|]. split; reflexivity.
  - exists p. rewrite Hbad, Hpre. repeat split.
Defined.

Lemma initialize_configuration_always_well_formed_example :
  exists p out,
    well_formed p /\ typed p
    /\ (initialize identity_initialize tt tt (VBool true) (VStr "O3")
            [("loss_scale", VStr "65536"); ("opt_level", VInt 7)] World_init
          = identity_initialize tt tt p (enabled_world World_init p out)
        \/ exists e,
             initialize identity_initialize tt tt (VBool true) (VStr "O3")
                 [("loss_scale", VStr "65536"); ("opt_level", VInt 7)]
                 World_init
               = (enabled_world World_init p out, Raise e)).
Proof.
  apply (initialize_configuration_always_well_formed unit unit
           identity_initialize tt tt (VBool true) (VStr "O3") O3
           [("loss_scale", VStr "65536"); ("opt_level", VInt 7)] World_init).
  - reflexivity.
  - reflexivity.
Defined.

Lemma initialize_override_order_irrelevant_example :
  initialize identity_initialize tt tt (VBool true) (VStr "O0")
      [("loss_scale", VStr "dynamic"); ("keep_batchnorm_fp32", VBool true)]
      World_init
    = initialize identity_initialize tt tt (VBool true) (VStr "O0")
        [("keep_batchnorm_fp32", VBool true); ("loss_scale", VStr "dynamic")]
        World_init.
Proof.
  eapply (initialize_override_order_irrelevant unit unit identity_initialize
            tt tt (VBool true) (VStr "O0") O0 _
            [("keep_batchnorm_fp32", VBool true); ("loss_scale", VStr "dynamic")]
            [("loss_scale", VStr "dynamic"); ("keep_batchnorm_fp32", VBool true)]
            World_init eq_refl eq_refl eq_refl).
  - apply perm_swap.
  - repeat constructor; simpl; intuition discriminate.
  - intros k v [[= <- <-] | [[= <- <-] | []]];
      (split; [reflexivity | intros _; eexists; reflexivity]).
Defined.

Lemma initialize_ignores_previous_configuration_example :
  initialize identity_initialize tt tt (VBool true) (VStr "O3")
      [("loss_scale", VInt 2)]
      {| _amp_state :=
           {| hard_override := hard_override (_amp_state World_init);
              opt_properties :=
                Some (store Properties_init "master_weights" (VBool true)) |};
         stdout := stdout World_init |}
    = initialize identity_initialize tt tt (VBool true) (VStr "O3")
        [("loss_scale", VInt 2)] World_init.
Proof.
  apply (initialize_ignores_previous_configuration unit unit
           identity_initialize tt tt (VBool true) (VStr "O3")
           [("loss_scale", VInt 2)] World_init
           (Some (store Properties_init "master_weights" (VBool true)))).
  right. exists O3. reflexivity.
Defined.

Lemma initialize_disabled_then_warn_or_err_example :
  (exists w',
     bind (initialize identity_initialize tt tt (VBool false) VNone
             [("hard_override", VBool true)])
          (fun _ => warn_or_err "inconsistent") World_init = (w', Ok tt)
     /\ stdout w' = [[Lit "Warning:  inconsistent"]]
     /\ hard_override (_amp_state w') = VBool true)
  /\ (exists w' t,
        bind (initialize identity_initialize tt tt (VBool false) VNone
                [("hard_override", VBool false)])
             (fun _ => warn_or_err "inconsistent") World_init
          = (w', Raise (RuntimeError t))
        /\ stdout w' = [])
  /\ snd (bind (initialize identity_initialize tt tt (VBool false) VNone [])
               (fun _ => warn_or_err "inconsistent") World_init)
     = snd (warn_or_err "inconsistent" World_init).
Proof.
  split; [|split].
  - destruct (initialize_disabled_then_warn_or_err unit unit
                identity_initialize tt tt (VBool false) VNone
                [("hard_override", VBool true)] "inconsistent" World_init
                eq_refl) as (H & _).
    exact (H (VBool true) eq_refl eq_refl).
  - destruct (initialize_disabled_then_warn_or_err unit unit
                identity_initialize tt tt (VBool false) VNone
                [("hard_override", VBool false)] "inconsistent" World_init
                eq_refl) as (_ & H & _).
    exact (H (VBool false) eq_refl eq_refl).
  - destruct (initialize_disabled_then_warn_or_err unit unit
                identity_initialize tt tt (VBool false) VNone
                [] "inconsistent" World_init eq_refl) as (_ & _ & H).
    exact (H eq_refl).
Defined.

(** ** master_params *)

(** The parameters a generator has still to yield. *)
Lemma next_group_remaining {P : Type} (groups : list (param_group P)) :
  match next_group groups with
  | None => flat_map params groups = []
  | Some (p, g') =>
      flat_map params groups = (p :: fst g' ++ flat_map params (snd g'))%list
  end.
Proof.
  induction groups as [|group r IH]; [reflexivity|].
  cbn [next_group flat_map]. destruct (params group) as [|p ps].
  - exact IH.
  - reflexivity.
Qed.

Lemma next_remaining {P : Type} (g : generator P) :
  match next g with
  | None => (fst g ++ flat_map params (snd g))%list = []
  | Some (p, g') =>
      (fst g ++ flat_map params (snd g))%list
        = (p :: fst g' ++ flat_map params (snd g'))%list
  end.
Proof.
  destruct g as [[|p ps] groups]; unfold next; cbn [fst snd app].
  - apply next_group_remaining.
  - reflexivity.
Qed.

Lemma drain_remaining {P : Type} (fuel : nat) :
  forall g : generator P,
    drain fuel g
      = (firstn fuel (fst g ++ flat_map params (snd g))%list,
         Nat.ltb (List.length (fst g ++ flat_map params (snd g))%list) fuel).
Proof.
  induction fuel as [|n IH]; intros g.
  - reflexivity.
  - cbn [drain]. pose proof (next_remaining g) as H.
    destruct (next g) as [[p g']|].
    + rewrite H, IH. reflexivity.
    + rewrite H. reflexivity.
Qed.

(** X12.  [master_params] yields the parameters of the optimizer's
    groups, group after group and in each group's own order, passing
    over empty groups, and then stops: the first [n] calls of [next]
    give the first [n] parameters of the concatenated groups, and
    [StopIteration] is reached exactly when [n] exceeds their number. *)
Theorem master_params_yields_groups_in_order {P : Type}
    (optimizer : Optimizer P) (n : nat) :
  drain n (master_params optimizer)
    = (firstn n (flat_map params (param_groups optimizer)),
       Nat.ltb (List.length (flat_map params (param_groups optimizer))) n).
Proof.
  unfold master_params. now rewrite drain_remaining.
Qed.

(** ** Interchangeable override values *)

Lemma run_overrides_same_coercion (k : string) (v v' : value) (post : dict) :
  is_None v = is_None v' -> coerce k v = coerce k v' ->
  forall pre p, well_formed p ->
  run_overrides p (pre ++ (k, v) :: post)%list
    = run_overrides p (pre ++ (k, v') :: post)%list.
Proof.
  intros Hn Hc.
  induction pre as [|[k1 v1] pre IH]; intros p Hwf; cbn [app].
  - rewrite !(run_overrides_cons p k _ post Hwf). now rewrite Hn, Hc.
  - rewrite !(run_overrides_cons p k1 v1 _ Hwf).
    destruct (is_recognized k1) eqn:Hk; cbn [negb]; [|reflexivity].
    destruct (is_None v1); [now apply IH|].
    destruct (coerce k1 v1) as [c1|e1]; [|reflexivity].
    apply IH. now apply store_well_formed.
Qed.

Lemma setattr_same_coerce_same (p : Properties) (k : string) (v v' : value) :
  well_formed p -> is_recognized k = true ->
  __setattr__ p k v = __setattr__ p k v' -> coerce k v = coerce k v'.
Proof.
  intros Hwf Hk. rewrite !(setattr_coerce p k _ Hwf Hk).
  destruct (coerce k v) as [c|e], (coerce k v') as [c'|e']; try discriminate.
  - intros H.
    apply (f_equal (fun r => match r with
                             | Ok q => __getattr__ q k
                             | Raise e => Raise e
                             end)) in H.
    rewrite !getattr_store in H. congruence.
  - congruence.
Qed.

Section InitializeInterchangeable.

Variables Models Optimizers : Type.
Variable _initialize :
  Models -> Optimizers -> Properties -> M (Models * Optimizers).

(** X13.  Only what the setter makes of an override counts: if two
    values, neither of them [None], get the same outcome from the setter
    of a key on the preset (the same stored configuration, or the same
    error), then giving one or the other for that key, among any other
    overrides, makes no difference to the result of [initialize], to the
    shared configuration, or to what is printed. *)
Theorem initialize_same_coercion_same_result
    (models : Models) (optimizers : Optimizers)
    (enabled opt_level : value) (o : preset) (p0 : Properties)
    (pre post : dict) (k : string) (v v' : value) (w : World) :
  py_bool enabled = true ->
  opt_levels_get opt_level = Some o ->
  call o Properties_init = Ok p0 ->
  is_None v = false -> is_None v' = false ->
  __setattr__ p0 k v = __setattr__ p0 k v' ->
  initialize _initialize models optimizers enabled opt_level
      (pre ++ (k, v) :: post)%list w
    = initialize _initialize models optimizers enabled opt_level
        (pre ++ (k, v') :: post)%list w.
Proof.
  intros H Ho Hc Hn Hn' Hs.
  destruct (call_Ok_invariant o p0 Hc) as (Hwf & _).
  rewrite !(initialize_exact Models Optimizers _initialize models optimizers
              enabled opt_level o p0 _ w H Ho Hc).
  destruct (is_recognized k) eqn:Hk.
  - rewrite (run_overrides_same_coercion k v v' post); auto; [congruence|].
    now apply (setattr_same_coerce_same p0).
  - assert (E : forall u pre1 p, well_formed p ->
              run_overrides p (pre1 ++ (k, u) :: post)%list
                = run_overrides p (pre1 ++ (k, VNone) :: post)%list).
    { intros u pre1. induction pre1 as [|[k1 v1] pre1 IH]; intros p Hp; cbn [app].
      - rewrite !(run_overrides_cons p k _ post Hp). now rewrite Hk.
      - rewrite !(run_overrides_cons p k1 v1 _ Hp).
        destruct (is_recognized k1) eqn:Hk1; cbn [negb]; [|reflexivity].
        destruct (is_None v1); [now apply IH|].
        destruct (coerce k1 v1) as [c1|e1]; [|reflexivity].
        apply IH. now apply store_well_formed. }
    now rewrite (E v pre p0 Hwf), (E v' pre p0 Hwf).
Qed.

End InitializeInterchangeable.

Lemma initialize_same_coercion_same_result_example :
  initialize identity_initialize tt tt (VBool true) (VStr "O2")
      ([("keep_batchnorm_fp32", VBool false)]
       ++ ("loss_scale", VStr "128.0") :: [])%list World_init
    = initialize identity_initialize tt tt (VBool true) (VStr "O2")
        ([("keep_batchnorm_fp32", VBool false)]
         ++ ("loss_scale", VInt 128) :: [])%list World_init.
Proof.
  eapply (initialize_same_coercion_same_result unit unit identity_initialize
            tt tt (VBool true) (VStr "O2") O2 _
            [("keep_batchnorm_fp32", VBool false)] [] "loss_scale"
            (VStr "128.0") (VInt 128) World_init
            eq_refl eq_refl eq_refl eq_refl eq_refl).
  reflexivity.
Defined.
